(** * SceneManager: texture registry, material registry, uniform upload

    A shallow embedding of [Source/SceneManager.cpp].  The class members
    become a record, the OpenGL context the methods talk to becomes a second
    record, and every method is a function on the pair of both.  C++ undefined
    behaviour that the methods can reach (indexing [m_textureIDs] outside its
    extent, calling through a null [m_pShaderManager]) is an explicit outcome
    of the embedding rather than a silent default. *)

From Stdlib Require Import ZArith String.
From stdpp Require Import base option list strings gmap.

Local Open Scope Z_scope.

(** ** Outcomes of a method call *)

(** A call either returns, or runs into undefined behaviour: an array
    subscript outside the array, or a member call through [NULL]. *)
Inductive outcome (A : Type) : Type :=
  | Ok (a : A)
  | OutOfBounds (index : Z)
  | NullDereference.
Arguments Ok {A} a.
Arguments OutOfBounds {A} index.
Arguments NullDereference {A}.

#[global] Instance outcome_ret : MRet outcome := fun A a => Ok a.
#[global] Instance outcome_bind : MBind outcome := fun A B f m =>
  match m with
  | Ok a => f a
  | OutOfBounds i => OutOfBounds i
  | NullDereference => NullDereference
  end.

(** ** Integer conversions *)

(** [GLuint] is an unsigned 32-bit integer, [int] a signed one.  Assigning an
    [int] to a [GLuint] reduces modulo 2^32; the way back wraps into
    [-2^31, 2^31). *)
Definition GLuint_of_int (i : Z) : Z := i mod 2 ^ 32.
Definition int_of_GLuint (u : Z) : Z := (u + 2 ^ 31) mod 2 ^ 32 - 2 ^ 31.

(** ** External libraries *)

(** glm: the scalar and matrix types and the five operations
    [SetTransformations] uses.  The library is not part of the repository;
    its operations are taken as they come. *)
Class Glm : Type := {
  float : Type;
  mat4 : Type;
  float_literal : string -> float;
  glm_radians : float -> float;
  glm_scale : float * float * float -> mat4;
  glm_rotate : float -> float * float * float -> mat4;
  glm_translate : float * float * float -> mat4;
  mat4_mul : mat4 -> mat4 -> mat4
}.

(** stb_image: what [stbi_load] finds at a path. *)
Record stbi_image : Type := {
  width : Z;
  height : Z;
  colorChannels : Z
}.

Class StbImage : Type := {
  stbi_load : string -> option stbi_image
}.

(** OpenGL: the calls this file issues, and the part of the context they
    act on.  [glDeleteTextures] is listed because teardown is specified in
    terms of it. *)
Inductive gl_internal_format : Type := GL_RGB8 | GL_RGBA8.

Inductive gl_call : Type :=
  | glGenTextures (name : Z)
  | glBindTexture (name : Z)
  | glActiveTexture (unit : Z)
  | glTexParameteri (pname value : string)
  | glTexImage2D (fmt : gl_internal_format) (w h : Z)
  | glGenerateMipmap
  | glDeleteTextures (name : Z).

Record GLContext : Type := {
  gl_next_texture : Z;
  gl_active_unit : Z;
  gl_bound_2D : gmap Z Z;
  gl_calls : list gl_call
}.

Definition gl_log (c : gl_call) (gl : GLContext) : GLContext :=
  {| gl_next_texture := gl_next_texture gl;
     gl_active_unit := gl_active_unit gl;
     gl_bound_2D := gl_bound_2D gl;
     gl_calls := gl_calls gl ++ [c] |}.

(** [glGenTextures(1, &id)]: hands out the next unused texture name. *)
Definition gl_GenTextures (gl : GLContext) : Z * GLContext :=
  let name := gl_next_texture gl in
  (name,
   gl_log (glGenTextures name)
     {| gl_next_texture := name + 1;
        gl_active_unit := gl_active_unit gl;
        gl_bound_2D := gl_bound_2D gl;
        gl_calls := gl_calls gl |}).

(** [glBindTexture(GL_TEXTURE_2D, name)]: binds on the active unit. *)
Definition gl_BindTexture (name : Z) (gl : GLContext) : GLContext :=
  gl_log (glBindTexture name)
    {| gl_next_texture := gl_next_texture gl;
       gl_active_unit := gl_active_unit gl;
       gl_bound_2D := <[gl_active_unit gl := name]> (gl_bound_2D gl);
       gl_calls := gl_calls gl |}.

(** [glActiveTexture(GL_TEXTURE0 + unit)]. *)
Definition gl_ActiveTexture (unit : Z) (gl : GLContext) : GLContext :=
  gl_log (glActiveTexture unit)
    {| gl_next_texture := gl_next_texture gl;
       gl_active_unit := unit;
       gl_bound_2D := gl_bound_2D gl;
       gl_calls := gl_calls gl |}.

(** ** The class *)

Record TEXTURE_INFO : Type := {
  tag : string;
  ID : Z
}.

Definition texture_at (a : list TEXTURE_INFO) (i : Z) : outcome TEXTURE_INFO :=
  if i <? 0 then OutOfBounds i
  else match a !! Z.to_nat i with
       | Some e => Ok e
       | None => OutOfBounds i
       end.

Definition texture_store (a : list TEXTURE_INFO) (i : Z) (e : TEXTURE_INFO)
  : outcome (list TEXTURE_INFO) :=
  _ ← texture_at a i; Ok (<[Z.to_nat i := e]> a).

(** [e.tag.compare(t) == 0] *)
Definition tag_is (t : string) (e : TEXTURE_INFO) : bool := String.eqb (tag e) t.

Section SceneManager.
Context {glm : Glm} {stb : StbImage}.

Definition vec2 : Type := float * float.
Definition vec3 : Type := float * float * float.
Definition vec4 : Type := float * float * float * float.

Record OBJECT_MATERIAL : Type := {
  diffuseColor : vec3;
  specularColor : vec3;
  shininess : float;
  material_tag : string
}.

(** The shader manager is a store of named uniforms. *)
Inductive uniform : Type :=
  | IntValue (i : Z)
  | BoolValue (b : bool)
  | FloatValue (f : float)
  | Vec2Value (v : vec2)
  | Vec3Value (v : vec3)
  | Vec4Value (v : vec4)
  | Mat4Value (m : mat4)
  | Sampler2DValue (slot : Z).

Inductive mesh : Type :=
  | PlaneMesh | BoxMesh | CylinderMesh | TaperedCylinderMesh | TorusMesh | SphereMesh.

Record SceneManager : Type := {
  m_pShaderManager : option (gmap string uniform);
  m_basicMeshes : option (list mesh);
  m_textureIDs : list TEXTURE_INFO;
  m_loadedTextures : Z;
  m_objectMaterials : list OBJECT_MATERIAL
}.

Record World : Type := {
  this : SceneManager;
  gl : GLContext
}.

Definition set_textures (a : list TEXTURE_INFO) (n : Z) (s : SceneManager)
  : SceneManager :=
  {| m_pShaderManager := m_pShaderManager s;
     m_basicMeshes := m_basicMeshes s;
     m_textureIDs := a;
     m_loadedTextures := n;
     m_objectMaterials := m_objectMaterials s |}.

Definition set_shader (sm : option (gmap string uniform)) (s : SceneManager)
  : SceneManager :=
  {| m_pShaderManager := sm;
     m_basicMeshes := m_basicMeshes s;
     m_textureIDs := m_textureIDs s;
     m_loadedTextures := m_loadedTextures s;
     m_objectMaterials := m_objectMaterials s |}.

Definition set_materials (ms : list OBJECT_MATERIAL) (s : SceneManager)
  : SceneManager :=
  {| m_pShaderManager := m_pShaderManager s;
     m_basicMeshes := m_basicMeshes s;
     m_textureIDs := m_textureIDs s;
     m_loadedTextures := m_loadedTextures s;
     m_objectMaterials := ms |}.

Definition set_meshes (d : option (list mesh)) (s : SceneManager)
  : SceneManager :=
  {| m_pShaderManager := m_pShaderManager s;
     m_basicMeshes := d;
     m_textureIDs := m_textureIDs s;
     m_loadedTextures := m_loadedTextures s;
     m_objectMaterials := m_objectMaterials s |}.

(** *** Constructor *)

Definition initial_slot : TEXTURE_INFO :=
  {| tag := "/0"; ID := GLuint_of_int (-1) |}.

Definition SceneManager_new (pShaderManager : option (gmap string uniform))
  : SceneManager :=
  {| m_pShaderManager := pShaderManager;
     m_basicMeshes := Some [];
     m_textureIDs := replicate 16 initial_slot;
     m_loadedTextures := 0;
     m_objectMaterials := [] |}.

(** *** CreateGLTexture *)

(** The two assignments to [m_textureIDs[m_loadedTextures]] are one store of
    both fields.  Console output, [stbi_set_flip_vertically_on_load] and
    [stbi_image_free] act on nothing the class or the OpenGL context holds
    and are left out. *)

Definition CreateGLTexture (filename tag : string) (w : World)
  : outcome (bool * World) :=
  match stbi_load filename with
  | Some image =>
      let '(textureID, g) := gl_GenTextures (gl w) in
      let g := gl_BindTexture textureID g in
      let g := gl_log (glTexParameteri "GL_TEXTURE_WRAP_S" "GL_REPEAT") g in
      let g := gl_log (glTexParameteri "GL_TEXTURE_WRAP_T" "GL_REPEAT") g in
      let g := gl_log (glTexParameteri "GL_TEXTURE_MIN_FILTER" "GL_LINEAR") g in
      let g := gl_log (glTexParameteri "GL_TEXTURE_MAG_FILTER" "GL_LINEAR") g in
      let upload :=
        if colorChannels image =? 3 then
          Some (gl_log (glTexImage2D GL_RGB8 (width image) (height image)) g)
        else if colorChannels image =? 4 then
          Some (gl_log (glTexImage2D GL_RGBA8 (width image) (height image)) g)
        else None in
      match upload with
      | None => Ok (false, {| this := this w; gl := g |})
      | Some g =>
          let g := gl_log glGenerateMipmap g in
          let g := gl_BindTexture 0 g in
          let s := this w in
          a ← texture_store (m_textureIDs s) (m_loadedTextures s)
                {| tag := tag; ID := textureID |};
          Ok (true,
              {| this := set_textures a (m_loadedTextures s + 1) s; gl := g |})
      end
  | None => Ok (false, w)
  end.

(** *** BindGLTextures *)

(** [for (int i = 0; i < m_loadedTextures; i++)]: [n] counts the iterations
    that remain, [i] is the loop variable. *)
Fixpoint BindGLTextures_loop (n : nat) (i : Z) (w : World) : outcome World :=
  match n with
  | O => Ok w
  | S n' =>
      let g := gl_ActiveTexture i (gl w) in
      e ← texture_at (m_textureIDs (this w)) i;
      let g := gl_BindTexture (ID e) g in
      BindGLTextures_loop n' (i + 1) {| this := this w; gl := g |}
  end.

Definition BindGLTextures (w : World) : outcome World :=
  BindGLTextures_loop (Z.to_nat (m_loadedTextures (this w))) 0 w.

(** *** DestroyGLTextures *)

Fixpoint DestroyGLTextures_loop (n : nat) (i : Z) (w : World) : outcome World :=
  match n with
  | O => Ok w
  | S n' =>
      let s := this w in
      e ← texture_at (m_textureIDs s) i;
      let '(name, g) := gl_GenTextures (gl w) in
      a ← texture_store (m_textureIDs s) i {| tag := tag e; ID := name |};
      DestroyGLTextures_loop n' (i + 1)
        {| this := set_textures a (m_loadedTextures s) s; gl := g |}
  end.

Definition DestroyGLTextures (w : World) : outcome World :=
  DestroyGLTextures_loop (Z.to_nat (m_loadedTextures (this w))) 0 w.

(** *** Destructor *)

Definition SceneManager_delete (w : World) : outcome World :=
  let s := set_shader None (this w) in
  let s := if m_basicMeshes s is Some _ then set_meshes None s else s in
  DestroyGLTextures {| this := s; gl := gl w |}.

(** *** FindTextureID, FindTextureSlot *)

(** [while ((index < m_loadedTextures) && (bFound == false))]: [n] is
    [m_loadedTextures - index]; a match ends the loop at once. *)
Fixpoint FindTextureID_loop (n : nat) (index : Z) (tag : string)
    (s : SceneManager) : outcome Z :=
  match n with
  | O => Ok (-1)
  | S n' =>
      e ← texture_at (m_textureIDs s) index;
      if tag_is tag e then Ok (int_of_GLuint (ID e))
      else FindTextureID_loop n' (index + 1) tag s
  end.

Definition FindTextureID (tag : string) (w : World) : outcome Z :=
  FindTextureID_loop (Z.to_nat (m_loadedTextures (this w))) 0 tag (this w).

Fixpoint FindTextureSlot_loop (n : nat) (index : Z) (tag : string)
    (s : SceneManager) : outcome Z :=
  match n with
  | O => Ok (-1)
  | S n' =>
      e ← texture_at (m_textureIDs s) index;
      if tag_is tag e then Ok index
      else FindTextureSlot_loop n' (index + 1) tag s
  end.

Definition FindTextureSlot (tag : string) (w : World) : outcome Z :=
  FindTextureSlot_loop (Z.to_nat (m_loadedTextures (this w))) 0 tag (this w).

(** *** FindMaterial *)

(** The loop over [m_objectMaterials]; returns [bFound] and the caller's
    [material] after the three field copies (the tag is not copied). *)
Fixpoint FindMaterial_loop (ms : list OBJECT_MATERIAL) (tag : string)
    (material : OBJECT_MATERIAL) : bool * OBJECT_MATERIAL :=
  match ms with
  | [] => (false, material)
  | m :: rest =>
      if String.eqb (material_tag m) tag then
        (true,
         {| diffuseColor := diffuseColor m;
            specularColor := specularColor m;
            shininess := shininess m;
            material_tag := material_tag material |})
      else FindMaterial_loop rest tag material
  end.

Definition FindMaterial (tag : string) (material : OBJECT_MATERIAL) (w : World)
  : bool * OBJECT_MATERIAL :=
  if bool_decide (length (m_objectMaterials (this w)) = 0%nat) then
    (false, material)
  else
    let '(bFound, material) :=
      FindMaterial_loop (m_objectMaterials (this w)) tag material in
    (true, material).

(** *** Uniform upload *)

(** [m_pShaderManager->setXValue(name, v)] *)
Definition setValue (name : string) (v : uniform) (w : World) : outcome World :=
  match m_pShaderManager (this w) with
  | Some u =>
      Ok {| this := set_shader (Some (<[name := v]> u)) (this w); gl := gl w |}
  | None => NullDereference
  end.

Definition g_ModelName : string := "model".
Definition g_ColorValueName : string := "objectColor".
Definition g_TextureValueName : string := "objectTexture".
Definition g_UseTextureName : string := "bUseTexture".
Definition g_UseLightingName : string := "bUseLighting".

Definition SetTransformations (scaleXYZ : vec3)
    (XrotationDegrees YrotationDegrees ZrotationDegrees : float)
    (positionXYZ : vec3) (w : World) : outcome World :=
  let f0 := float_literal "0.0f" in
  let f1 := float_literal "1.0f" in
  let scale := glm_scale scaleXYZ in
  let rotationX := glm_rotate (glm_radians XrotationDegrees) (f1, f0, f0) in
  let rotationY := glm_rotate (glm_radians YrotationDegrees) (f0, f1, f0) in
  let rotationZ := glm_rotate (glm_radians ZrotationDegrees) (f0, f0, f1) in
  let translation := glm_translate positionXYZ in
  let modelView :=
    mat4_mul (mat4_mul (mat4_mul (mat4_mul translation rotationZ) rotationY)
                rotationX) scale in
  if m_pShaderManager (this w) is Some _ then
    setValue g_ModelName (Mat4Value modelView) w
  else Ok w.

Definition SetShaderColor
    (redColorValue greenColorValue blueColorValue alphaValue : float)
    (w : World) : outcome World :=
  let currentColor :=
    (redColorValue, greenColorValue, blueColorValue, alphaValue) in
  if m_pShaderManager (this w) is Some _ then
    w ← setValue g_UseTextureName (IntValue 0) w;
    setValue g_ColorValueName (Vec4Value currentColor) w
  else Ok w.

Definition SetShaderTexture (textureTag : string) (w : World) : outcome World :=
  if m_pShaderManager (this w) is Some _ then
    w ← setValue g_UseTextureName (IntValue 1) w;
    textureID ← FindTextureSlot textureTag w;
    setValue g_TextureValueName (Sampler2DValue textureID) w
  else Ok w.

Definition SetTextureUVScale (u v : float) (w : World) : outcome World :=
  if m_pShaderManager (this w) is Some _ then
    setValue "UVscale" (Vec2Value (u, v)) w
  else Ok w.

(** What the local [OBJECT_MATERIAL material;] of [SetShaderMaterial] holds
    before [FindMaterial] writes to it. *)
Context (uninitialised : OBJECT_MATERIAL).

Definition SetShaderMaterial (materialTag : string) (w : World) : outcome World :=
  if bool_decide (0 < length (m_objectMaterials (this w)))%nat then
    let '(bReturn, material) := FindMaterial materialTag uninitialised w in
    if bReturn then
      w ← setValue "material.diffuseColor" (Vec3Value (diffuseColor material)) w;
      w ← setValue "material.specularColor" (Vec3Value (specularColor material)) w;
      setValue "material.shininess" (FloatValue (shininess material)) w
    else Ok w
  else Ok w.

(** *** Scene set-up *)

Definition LoadSceneTextures (w : World) : outcome World :=
  '(bReturn, w) ← CreateGLTexture "textures/Desk texture.jpg" "DeskTexture" w;
  '(bReturn, w) ← CreateGLTexture "textures/BlackBezzle.jpg" "BlackBezzle" w;
  '(bReturn, w) ← CreateGLTexture "textures/Steel.jpg" "Steel" w;
  '(bReturn, w) ← CreateGLTexture "textures/coffeecuptexture.jpg" "CupTexture" w;
  BindGLTextures w.

Definition push_back (m : OBJECT_MATERIAL) (w : World) : World :=
  {| this := set_materials (m_objectMaterials (this w) ++ [m]) (this w);
     gl := gl w |}.

Definition DefineObjectMaterials (w : World) : World :=
  let lit := float_literal in
  let goldMaterial :=
    {| diffuseColor := (lit "0.4f", lit "0.4f", lit "0.4f");
       specularColor := (lit "0.7f", lit "0.7f", lit "0.6f");
       shininess := lit "60.0";
       material_tag := "metal" |} in
  let w := push_back goldMaterial w in
  let woodMaterial :=
    {| diffuseColor := (lit "0.2f", lit "0.2f", lit "0.3f");
       specularColor := (lit "0.0f", lit "0.0f", lit "0.0f");
       shininess := lit "0.1";
       material_tag := "wood" |} in
  let w := push_back woodMaterial w in
  let glassMaterial :=
    {| diffuseColor := (lit "0.7f", lit "0.7f", lit "0.7f");
       specularColor := (lit "1.0f", lit "1.0f", lit "1.0f");
       shininess := lit "90.0";
       material_tag := "glass" |} in
  push_back glassMaterial w.

(** *** The first object of RenderScene: the desk plane *)

(** [m_basicMeshes->DrawPlaneMesh()] and its siblings. *)
Definition Draw (m : mesh) (w : World) : outcome World :=
  match m_basicMeshes (this w) with
  | Some drawn => Ok {| this := set_meshes (Some (drawn ++ [m])) (this w); gl := gl w |}
  | None => NullDereference
  end.

Definition RenderScene_desk (w : World) : outcome World :=
  let lit := float_literal in
  let scaleXYZ := (lit "30.0f", lit "2.0f", lit "15.0f") in
  let XrotationDegrees := lit "0.0f" in
  let YrotationDegrees := lit "0.0f" in
  let ZrotationDegrees := lit "0.0f" in
  let positionXYZ := (lit "0.0f", lit "0.0f", lit "0.0f") in
  w ← SetTransformations scaleXYZ XrotationDegrees YrotationDegrees
        ZrotationDegrees positionXYZ w;
  w ← SetShaderTexture "DeskTexture" w;
  w ← SetTextureUVScale (lit "1.0") (lit "1.0") w;
  w ← SetShaderMaterial "wood" w;
  Draw PlaneMesh w.

End SceneManager.

(** ** Scene set-up and rendering *)

Section Scene.
Context {glm : Glm} {stb : StbImage} (uninitialised : OBJECT_MATERIAL).

(** *** SetupSceneLights *)

(** [setVec3Value(name, x, y, z)] with the three literals as written. *)
Definition setVec3 (name x y z : string) (w : World) : outcome World :=
  setValue name (Vec3Value (float_literal x, float_literal y, float_literal z)) w.

Definition SetupSceneLights (w : World) : outcome World :=
  w ← setValue g_UseLightingName (BoolValue true) w;
  w ← setVec3 "directionalLight.direction" "0.0f" "-1.0f" "0.0f" w;
  w ← setVec3 "directionalLight.ambient" "0.1f" "0.1f" "0.1f" w;
  w ← setVec3 "directionalLight.diffuse" "0.4f" "0.4f" "0.4f" w;
  w ← setVec3 "directionalLight.specular" "1.0f" "1.0f" "1.0f" w;
  w ← setValue "directionalLight.bActive" (BoolValue true) w;
  w ← setVec3 "pointLights[0].position" "0.0f" "55.0f" "0.0f" w;
  w ← setVec3 "pointLights[0].ambient" "0.1f" "0.1f" "0.1f" w;
  w ← setVec3 "pointLights[0].diffuse" "1.0f" "1.0f" "1.0f" w;
  w ← setVec3 "pointLights[0].specular" "1.0f" "1.0f" "1.0f" w;
  w ← setVec3 "pointLights[0].attenuation" "1.0f" "0.1f" "0.05f" w;
  w ← setValue "pointLights[0].bActive" (BoolValue true) w;
  w ← setVec3 "pointLights[1].position" "-15.0f" "55.0f" "0.0f" w;
  w ← setVec3 "pointLights[1].ambient" "0.1f" "0.1f" "0.1f" w;
  w ← setVec3 "pointLights[1].diffuse" "1.0f" "1.0f" "1.0f" w;
  w ← setVec3 "pointLights[1].specular" "1.0f" "1.0f" "1.0f" w;
  w ← setVec3 "pointLights[1].attenuation" "1.0f" "0.1f" "0.05f" w;
  w ← setValue "pointLights[1].bActive" (BoolValue true) w;
  w ← setVec3 "pointLights[2].position" "0.0f" "55.0f" "-5.0f" w;
  w ← setVec3 "pointLights[2].ambient" "0.1f" "0.1f" "0.1f" w;
  w ← setVec3 "pointLights[2].diffuse" "1.0f" "1.0f" "1.0f" w;
  w ← setVec3 "pointLights[2].specular" "1.0f" "1.0f" "1.0f" w;
  w ← setVec3 "pointLights[2].attenuation" "1.0f" "0.1f" "0.05f" w;
  setValue "pointLights[2].bActive" (BoolValue true) w.

(** The names [SetupSceneLights] writes. *)
Definition light_names : list string :=
  ["bUseLighting";
   "directionalLight.direction"; "directionalLight.ambient";
   "directionalLight.diffuse"; "directionalLight.specular";
   "directionalLight.bActive";
   "pointLights[0].position"; "pointLights[0].ambient";
   "pointLights[0].diffuse"; "pointLights[0].specular";
   "pointLights[0].attenuation"; "pointLights[0].bActive";
   "pointLights[1].position"; "pointLights[1].ambient";
   "pointLights[1].diffuse"; "pointLights[1].specular";
   "pointLights[1].attenuation"; "pointLights[1].bActive";
   "pointLights[2].position"; "pointLights[2].ambient";
   "pointLights[2].diffuse"; "pointLights[2].specular";
   "pointLights[2].attenuation"; "pointLights[2].bActive"].

(** *** PrepareScene *)

(** [m_basicMeshes->LoadPlaneMesh()] and its siblings.  The vertex buffers
    belong to [ShapeMeshes]; what the scene manager contributes is the call
    through its pointer. *)
Definition Load (m : mesh) (w : World) : outcome World :=
  match m_basicMeshes (this w) with
  | Some _ => Ok w
  | None => NullDereference
  end.

Definition PrepareScene (w : World) : outcome World :=
  w ← LoadSceneTextures w;
  w ← SetupSceneLights w;
  let w := DefineObjectMaterials w in
  w ← Load PlaneMesh w;
  w ← Load BoxMesh w;
  w ← Load TaperedCylinderMesh w;
  w ← Load TorusMesh w;
  w ← Load SphereMesh w;
  Load CylinderMesh w.

(** *** RenderScene *)

(** The objects in source order; object 1 is [RenderScene_desk].  Where the
    source calls [SetTransformations] twice for an object, so does this. *)
Definition RenderScene (w : World) : outcome World :=
  let lit := float_literal in
  (* object 1 *)
  w ← RenderScene_desk uninitialised w;
  (* object 2 *)
  let scaleXYZ := (lit "30.0f", lit "2.0f", lit "15.0") in
  let XrotationDegrees := lit "90" in
  let YrotationDegrees := lit "0" in
  let ZrotationDegrees := lit "0" in
  let positionXYZ := (lit "0.0f", lit "15.f", lit "-15.0f") in
  w ← SetTransformations scaleXYZ XrotationDegrees YrotationDegrees
        ZrotationDegrees positionXYZ w;
  w ← SetTransformations scaleXYZ XrotationDegrees YrotationDegrees
        ZrotationDegrees positionXYZ w;
  w ← SetShaderColor (lit "0.9") (lit "0.9") (lit "0.9") (lit "1") w;
  w ← Draw PlaneMesh w;
  (* object 3 *)
  let scaleXYZ := (lit "18.0f", lit "0.5f", lit "11.0f") in
  let XrotationDegrees := lit "90" in
  let YrotationDegrees := lit "0" in
  let ZrotationDegrees := lit "0" in
  let positionXYZ := (lit "0.0f", lit "8.0f", lit "-7.0f") in
  w ← SetTransformations scaleXYZ XrotationDegrees YrotationDegrees
        ZrotationDegrees positionXYZ w;
  w ← SetTransformations scaleXYZ XrotationDegrees YrotationDegrees
        ZrotationDegrees positionXYZ w;
  w ← SetShaderTexture "BlackBezzle" w;
  w ← SetShaderMaterial uninitialised "metal" w;
  w ← SetTextureUVScale (lit "1.0") (lit "1.0") w;
  w ← Draw BoxMesh w;
  (* object 4 *)
  let scaleXYZ := (lit "16.0f", lit "0.7f", lit "9.0f") in
  let XrotationDegrees := lit "90" in
  let YrotationDegrees := lit "0" in
  let ZrotationDegrees := lit "0" in
  let positionXYZ := (lit "0.0f", lit "8.0f", lit "-7.0f") in
  w ← SetTransformations scaleXYZ XrotationDegrees YrotationDegrees
        ZrotationDegrees positionXYZ w;
  w ← SetTransformations scaleXYZ XrotationDegrees YrotationDegrees
        ZrotationDegrees positionXYZ w;
  w ← SetShaderColor (lit "1") (lit "1") (lit "1") (lit "1") w;
  w ← Draw BoxMesh w;
  (* object 5 *)
  let scaleXYZ := (lit "18.0f", lit "0.7f", lit "1.0f") in
  let XrotationDegrees := lit "90" in
  let YrotationDegrees := lit "0" in
  let ZrotationDegrees := lit "0" in
  let positionXYZ := (lit "0.0f", lit "2.4f", lit "-7.0f") in
  w ← SetTransformations scaleXYZ XrotationDegrees YrotationDegrees
        ZrotationDegrees positionXYZ w;
  w ← SetTransformations scaleXYZ XrotationDegrees YrotationDegrees
        ZrotationDegrees positionXYZ w;
  w ← SetShaderTexture "Steel" w;
  w ← SetShaderMaterial uninitialised "metal" w;
  w ← SetTextureUVScale (lit "1.0") (lit "1.0") w;
  w ← Draw BoxMesh w;
  (* object 6 *)
  let scaleXYZ := (lit "18.0f", lit "0.5f", lit "11.0f") in
  let XrotationDegrees := lit "90" in
  let YrotationDegrees := lit "0" in
  let ZrotationDegrees := lit "0" in
  let positionXYZ := (lit "0.0f", lit "8.0f", lit "-7.5f") in
  w ← SetTransformations scaleXYZ XrotationDegrees YrotationDegrees
        ZrotationDegrees positionXYZ w;
  w ← SetTransformations scaleXYZ XrotationDegrees YrotationDegrees
        ZrotationDegrees positionXYZ w;
  w ← SetShaderColor (lit "0.0") (lit "0.0") (lit "0.0") (lit "1") w;
  w ← Draw BoxMesh w;
  (* object 7 *)
  let scaleXYZ := (lit "5.0f", lit "0.5f", lit "6.0f") in
  let XrotationDegrees := lit "90" in
  let YrotationDegrees := lit "0" in
  let ZrotationDegrees := lit "0" in
  let positionXYZ := (lit "0.0f", lit "0.0f", lit "-7.0f") in
  w ← SetTransformations scaleXYZ XrotationDegrees YrotationDegrees
        ZrotationDegrees positionXYZ w;
  w ← SetTransformations scaleXYZ XrotationDegrees YrotationDegrees
        ZrotationDegrees positionXYZ w;
  w ← SetShaderTexture "Steel" w;
  w ← SetTextureUVScale (lit "1.0") (lit "1.0") w;
  w ← Draw BoxMesh w;
  (* object 8 *)
  let scaleXYZ := (lit "8.0f", lit "4.5f", lit "1.5f") in
  let XrotationDegrees := lit "90" in
  let YrotationDegrees := lit "0" in
  let ZrotationDegrees := lit "0" in
  let positionXYZ := (lit "0.0f", lit "0.0f", lit "-6.0f") in
  w ← SetTransformations scaleXYZ XrotationDegrees YrotationDegrees
        ZrotationDegrees positionXYZ w;
  w ← SetTransformations scaleXYZ XrotationDegrees YrotationDegrees
        ZrotationDegrees positionXYZ w;
  w ← SetShaderTexture "Steel" w;
  w ← SetShaderMaterial uninitialised "metal" w;
  w ← SetTextureUVScale (lit "1.0") (lit "1.0") w;
  w ← Draw BoxMesh w;
  (* object 9 *)
  let scaleXYZ := (lit "1.8f", lit "2.8f", lit "1.8f") in
  let XrotationDegrees := lit "180" in
  let YrotationDegrees := lit "0" in
  let ZrotationDegrees := lit "0" in
  let positionXYZ := (lit "-8.7f", lit "3.0f", lit "-4.6f") in
  w ← SetTransformations scaleXYZ XrotationDegrees YrotationDegrees
        ZrotationDegrees positionXYZ w;
  w ← SetShaderTexture "CupTexture" w;
  w ← SetShaderMaterial uninitialised "glass" w;
  w ← SetTextureUVScale (lit "1.0") (lit "1.0") w;
  w ← Draw TaperedCylinderMesh w;
  (* object 10 *)
  let scaleXYZ := (lit "0.8f", lit "0.8f", lit "0.3f") in
  let XrotationDegrees := lit "0" in
  let YrotationDegrees := lit "0" in
  let ZrotationDegrees := lit "0" in
  let positionXYZ := (lit "-6.9f", lit "1.3f", lit "-4.6f") in
  w ← SetTransformations scaleXYZ XrotationDegrees YrotationDegrees
        ZrotationDegrees positionXYZ w;
  w ← SetShaderTexture "CupTexture" w;
  w ← SetShaderMaterial uninitialised "glass" w;
  w ← SetTextureUVScale (lit "0.0") (lit "0.0") w;
  w ← Draw TorusMesh w;
  (* object 11 *)
  let scaleXYZ := (lit "11.8f", lit "0.8f", lit "3.8f") in
  let XrotationDegrees := lit "0" in
  let YrotationDegrees := lit "0" in
  let ZrotationDegrees := lit "0" in
  let positionXYZ := (lit "-2.2f", lit "0.0f", lit "0.0f") in
  w ← SetTransformations scaleXYZ XrotationDegrees YrotationDegrees
        ZrotationDegrees positionXYZ w;
  w ← SetTransformations scaleXYZ XrotationDegrees YrotationDegrees
        ZrotationDegrees positionXYZ w;
  w ← SetShaderColor (lit "1") (lit "1") (lit "1") (lit "1") w;
  w ← Draw BoxMesh w;
  (* object 12 *)
  let scaleXYZ := (lit "1.6f", lit "1.0f", lit "0.2") in
  let XrotationDegrees := lit "0" in
  let YrotationDegrees := lit "90" in
  let ZrotationDegrees := lit "90" in
  let positionXYZ := (lit "6.2f", lit "0.3f", lit "0.0f") in
  w ← SetTransformations scaleXYZ XrotationDegrees YrotationDegrees
        ZrotationDegrees positionXYZ w;
  w ← SetTransformations scaleXYZ XrotationDegrees YrotationDegrees
        ZrotationDegrees positionXYZ w;
  w ← SetShaderColor (lit "1") (lit "1") (lit "1") (lit "1") w;
  w ← Draw SphereMesh w;
  (* object 13 *)
  let scaleXYZ := (lit "1.8f", lit "2.8f", lit "1.8f") in
  let XrotationDegrees := lit "180" in
  let YrotationDegrees := lit "0" in
  let ZrotationDegrees := lit "0" in
  let positionXYZ := (lit "11.2f", lit "2.8f", lit "-5.3f") in
  w ← SetTransformations scaleXYZ XrotationDegrees YrotationDegrees
        ZrotationDegrees positionXYZ w;
  w ← SetTransformations scaleXYZ XrotationDegrees YrotationDegrees
        ZrotationDegrees positionXYZ w;
  w ← SetShaderColor (lit "1") (lit "1") (lit "1") (lit "1") w;
  w ← Draw TaperedCylinderMesh w;
  (* object 14 *)
  let scaleXYZ := (lit "0.2f", lit "3.5f", lit "0.2f") in
  let XrotationDegrees := lit "5" in
  let YrotationDegrees := lit "15" in
  let ZrotationDegrees := lit "0" in
  let positionXYZ := (lit "11.2f", lit "1.0f", lit "-5.3f") in
  w ← SetTransformations scaleXYZ XrotationDegrees YrotationDegrees
        ZrotationDegrees positionXYZ w;
  w ← SetTransformations scaleXYZ XrotationDegrees YrotationDegrees
        ZrotationDegrees positionXYZ w;
  w ← SetShaderColor (lit "0") (lit "0") (lit "0") (lit "1") w;
  w ← Draw CylinderMesh w;
  (* object 15 *)
  let scaleXYZ := (lit "0.2f", lit "3.8f", lit "0.2f") in
  let XrotationDegrees := lit "-13" in
  let YrotationDegrees := lit "-10" in
  let ZrotationDegrees := lit "0" in
  let positionXYZ := (lit "10.8f", lit "1.3f", lit "-5.2f") in
  w ← SetTransformations scaleXYZ XrotationDegrees YrotationDegrees
        ZrotationDegrees positionXYZ w;
  w ← SetTransformations scaleXYZ XrotationDegrees YrotationDegrees
        ZrotationDegrees positionXYZ w;
  w ← SetShaderColor (lit "0") (lit "0") (lit "0") (lit "1") w;
  w ← Draw CylinderMesh w;
  (* object 16 *)
  let scaleXYZ := (lit "0.2f", lit "3.2f", lit "0.2f") in
  let XrotationDegrees := lit "7" in
  let YrotationDegrees := lit "-5" in
  let ZrotationDegrees := lit "0" in
  let positionXYZ := (lit "10.1f", lit "1.9f", lit "-5.4f") in
  w ← SetTransformations scaleXYZ XrotationDegrees YrotationDegrees
        ZrotationDegrees positionXYZ w;
  w ← SetTransformations scaleXYZ XrotationDegrees YrotationDegrees
        ZrotationDegrees positionXYZ w;
  w ← SetShaderColor (lit "0") (lit "0") (lit "0") (lit "1") w;
  w ← Draw CylinderMesh w;
  (* object 17 *)
  let scaleXYZ := (lit "3.5f", lit "0.5f", lit "2.5f") in
  let XrotationDegrees := lit "0" in
  let YrotationDegrees := lit "-5" in
  let ZrotationDegrees := lit "0" in
  let positionXYZ := (lit "-13.0f", lit "0.25f", lit "-5.0f") in
  w ← SetTransformations scaleXYZ XrotationDegrees YrotationDegrees
        ZrotationDegrees positionXYZ w;
  w ← SetTransformations scaleXYZ XrotationDegrees YrotationDegrees
        ZrotationDegrees positionXYZ w;
  w ← SetShaderColor (lit "0.0f") (lit "0.0f") (lit "0.0f") (lit "1") w;
  w ← Draw BoxMesh w;
  (* object 18 *)
  let scaleXYZ := (lit "3.3f", lit "0.4f", lit "2.4f") in
  let XrotationDegrees := lit "0" in
  let YrotationDegrees := lit "3" in
  let ZrotationDegrees := lit "0" in
  let positionXYZ := (lit "-12.9f", lit "0.75f", lit "-5.2f") in
  w ← SetTransformations scaleXYZ XrotationDegrees YrotationDegrees
        ZrotationDegrees positionXYZ w;
  w ← SetTransformations scaleXYZ XrotationDegrees YrotationDegrees
        ZrotationDegrees positionXYZ w;
  w ← SetShaderColor (lit "1") (lit "1") (lit "1") (lit "1") w;
  w ← Draw BoxMesh w;
  (* object 19 *)
  let scaleXYZ := (lit "3.2f", lit "0.3f", lit "2.3f") in
  let XrotationDegrees := lit "0" in
  let YrotationDegrees := lit "-7" in
  let ZrotationDegrees := lit "0" in
  let positionXYZ := (lit "-13.2f", lit "1.1f", lit "-4.8f") in
  w ← SetTransformations scaleXYZ XrotationDegrees YrotationDegrees
        ZrotationDegrees positionXYZ w;
  w ← SetTransformations scaleXYZ XrotationDegrees YrotationDegrees
        ZrotationDegrees positionXYZ w;
  w ← SetShaderColor (lit "0.0f") (lit "0.0f") (lit "0.0f") (lit "1") w;
  w ← Draw BoxMesh w;
  Ok w.

(** The meshes one pass of [RenderScene] draws, in order. *)
Definition scene_meshes : list mesh :=
  [PlaneMesh; PlaneMesh; BoxMesh; BoxMesh; BoxMesh; BoxMesh; BoxMesh; BoxMesh;
   TaperedCylinderMesh; TorusMesh; BoxMesh; SphereMesh; TaperedCylinderMesh;
   CylinderMesh; CylinderMesh; CylinderMesh; BoxMesh; BoxMesh; BoxMesh].

End Scene.


(** ** Harness: runs and test fixtures *)

Section Runs.
Context {glm : Glm} {stb : StbImage}.

(** A sequence of registrations, each given as (filename, tag). *)
Fixpoint register_all (calls : list (string * string)) (w : World)
  : outcome World :=
  match calls with
  | [] => Ok w
  | (filename, t) :: rest =>
      '(_, w) ← CreateGLTexture filename t w;
      register_all rest w
  end.

(** The files [CreateGLTexture] accepts: decodable, with 3 or 4 channels. *)
Definition accepted (filename : string) : bool :=
  match stbi_load filename with
  | Some image => (colorChannels image =? 3) || (colorChannels image =? 4)
  | None => false
  end.

Definition accepted_tags (calls : list (string * string)) : list string :=
  (filter (fun c => accepted c.1 = true) calls).*2.

(** The registered part of the table: the slots below [m_loadedTextures]. *)
Definition registered (w : World) : list TEXTURE_INFO :=
  take (Z.to_nat (m_loadedTextures (this w))) (m_textureIDs (this w)).

(** The table is within its extent. *)
Definition in_extent (w : World) : Prop :=
  (Z.to_nat (m_loadedTextures (this w)) ≤ length (m_textureIDs (this w)))%nat.

(** [filled regs w]: the table of [w] is [regs] followed by slots the
    constructor initialised, and the count is the length of [regs]. *)
Definition filled (regs : list TEXTURE_INFO) (w : World) : Prop :=
  m_loadedTextures (this w) = Z.of_nat (length regs)
  /\ m_textureIDs (this w) = regs ++ replicate (16 - length regs) initial_slot
  /\ (length regs <= 16)%nat.

Definition uniforms (w : World) : gmap string uniform :=
  default ∅ (m_pShaderManager (this w)).

(** [w] with the shader manager's store replaced by [u]. *)
Definition with_uniforms (u : gmap string uniform) (w : World) : World :=
  {| this := set_shader (Some u) (this w); gl := gl w |}.

(** The registrations of [LoadSceneTextures], as (filename, tag). *)
Definition scene_textures : list (string * string) :=
  [("textures/Desk texture.jpg", "DeskTexture");
   ("textures/BlackBezzle.jpg", "BlackBezzle");
   ("textures/Steel.jpg", "Steel");
   ("textures/coffeecuptexture.jpg", "CupTexture")].

(** The first registered slot that carries tag [t], with its index. *)
Definition first_match (t : string) (w : World) : option (nat * TEXTURE_INFO) :=
  list_find (fun e => tag e = t) (registered w).

(** [w] with shader manager [sm] and the draw log [drawn]. *)
Definition stage (sm : option (gmap string uniform)) (drawn : list mesh)
    (w : World) : World :=
  {| this := set_meshes (Some drawn) (set_shader sm (this w)); gl := gl w |}.

(** [f] goes through on every stage whose table is within its extent and
    which has a shader manager or no material, draws [ms], and changes
    nothing else but the uniform store. *)
Definition runs (f : World -> outcome World) (ms : list mesh) : Prop :=
  forall sm drawn w,
    in_extent w ->
    (sm = None -> m_objectMaterials (this w) = []) ->
    exists sm',
      f (stage sm drawn w) = Ok (stage sm' (drawn ++ ms) w)
      /\ (sm' = None <-> sm = None).

End Runs.

(** The product the specification names, written with its own letters. *)
Module ModelMatrix.
Section Product.
Context {glm : Glm}.

Definition T (t : vec3) : mat4 := glm_translate t.
Definition Rx (degrees : float) : mat4 :=
  glm_rotate (glm_radians degrees)
    (float_literal "1.0f", float_literal "0.0f", float_literal "0.0f").
Definition Ry (degrees : float) : mat4 :=
  glm_rotate (glm_radians degrees)
    (float_literal "0.0f", float_literal "1.0f", float_literal "0.0f").
Definition Rz (degrees : float) : mat4 :=
  glm_rotate (glm_radians degrees)
    (float_literal "0.0f", float_literal "0.0f", float_literal "1.0f").
Definition S (s : vec3) : mat4 := glm_scale s.

Definition ComposeModelMatrix (s : vec3) (rx ry rz : float) (t : vec3) : mat4 :=
  mat4_mul (mat4_mul (mat4_mul (mat4_mul (T t) (Rz rz)) (Ry ry)) (Rx rx)) (S s).

End Product.
End ModelMatrix.

(** Fixtures: glm as a term algebra, and a small file system. *)
Inductive float_term : Type :=
  | Literal (s : string)
  | Radians (f : float_term).

Inductive mat4_term : Type :=
  | Scale (v : float_term * float_term * float_term)
  | Rotate (angle : float_term) (axis : float_term * float_term * float_term)
  | Translate (v : float_term * float_term * float_term)
  | Mul (a b : mat4_term).

Definition glm_terms : Glm :=
  {| float := float_term;
     mat4 := mat4_term;
     float_literal := Literal;
     glm_radians := Radians;
     glm_scale := Scale;
     glm_rotate := Rotate;
     glm_translate := Translate;
     mat4_mul := Mul |}.

(** [rgb.jpg] and [rgba.png] decode with 3 and 4 channels, [grey-alpha.png]
    with 2; nothing else exists. *)
Definition test_files : StbImage :=
  {| stbi_load := fun filename =>
       if String.eqb filename "rgb.jpg" then
         Some {| width := 64; height := 32; colorChannels := 3 |}
       else if String.eqb filename "rgba.png" then
         Some {| width := 16; height := 16; colorChannels := 4 |}
       else if String.eqb filename "grey-alpha.png" then
         Some {| width := 8; height := 8; colorChannels := 2 |}
       else None |}.

Section Fixtures.
#[local] Existing Instance glm_terms.
#[local] Existing Instance test_files.

Definition fresh_gl : GLContext :=
  {| gl_next_texture := 1;
     gl_active_unit := 0;
     gl_bound_2D := ∅;
     gl_calls := [] |}.

Definition no_material : OBJECT_MATERIAL :=
  {| diffuseColor := (Literal "?", Literal "?", Literal "?");
     specularColor := (Literal "?", Literal "?", Literal "?");
     shininess := Literal "?";
     material_tag := "" |}.

(** A scene manager with a shader manager, straight from the constructor. *)
Definition fresh_world : World :=
  {| this := SceneManager_new (Some ∅); gl := fresh_gl |}.

(** The same without a shader manager. *)
Definition headless_world : World :=
  {| this := SceneManager_new None; gl := fresh_gl |}.

(** Three registered textures, the tag "desk" twice. *)
Definition three_textures : World :=
  {| this :=
       set_textures
         ([{| tag := "desk"; ID := 1 |};
           {| tag := "steel"; ID := 2 |};
           {| tag := "desk"; ID := 3 |}] ++ replicate 13 initial_slot)
         3 (SceneManager_new (Some ∅));
     gl := fresh_gl |}.

Definition mixed_calls : list (string * string) :=
  [("rgb.jpg", "A"); ("missing.png", "B"); ("rgb.jpg", "A");
   ("grey-alpha.png", "C"); ("rgba.png", "D")].

(** The scene manager after [mixed_calls]. *)
Definition mixed_world : World :=
  match register_all mixed_calls fresh_world with
  | Ok w => w
  | _ => fresh_world
  end.

(** [three_textures] with the three materials defined. *)
Definition furnished_world : World := DefineObjectMaterials three_textures.

Definition wood_material : OBJECT_MATERIAL :=
  {| diffuseColor := (Literal "0.2f", Literal "0.2f", Literal "0.3f");
     specularColor := (Literal "0.0f", Literal "0.0f", Literal "0.0f");
     shininess := Literal "0.1";
     material_tag := "wood" |}.

Definition sixteen_calls : list (string * string) :=
  (fun t => ("rgb.jpg", t)) <$>
    ["t0"; "t1"; "t2"; "t3"; "t4"; "t5"; "t6"; "t7";
     "t8"; "t9"; "t10"; "t11"; "t12"; "t13"; "t14"; "t15"].

End Fixtures.

(** ** Properties *)

Lemma texture_at_nat (a : list TEXTURE_INFO) (k : nat) :
  texture_at a (Z.of_nat k) =
  match a !! k with Some e => Ok e | None => OutOfBounds (Z.of_nat k) end.
Proof.
  unfold texture_at.
  destruct (Z.ltb_spec (Z.of_nat k) 0) as [Hneg | _]; [lia |].
  by rewrite Nat2Z.id.
Qed.

Lemma texture_at_inside (a : list TEXTURE_INFO) (k : nat) :
  (k < length a)%nat -> exists e, a !! k = Some e /\ texture_at a (Z.of_nat k) = Ok e.
Proof.
  intros Hk. destruct (lookup_lt_is_Some_2 a k Hk) as [e He].
  exists e. split; [done |]. by rewrite texture_at_nat, He.
Qed.

Lemma tag_is_true (t : string) (e : TEXTURE_INFO) : tag_is t e = true <-> tag e = t.
Proof. unfold tag_is. apply String.eqb_eq. Qed.

Lemma tag_is_false (t : string) (e : TEXTURE_INFO) : tag_is t e = false <-> tag e <> t.
Proof. unfold tag_is. apply String.eqb_neq. Qed.

Lemma int_of_GLuint_small (u : Z) : 0 <= u < 2 ^ 31 -> int_of_GLuint u = u.
Proof.
  intros Hu. unfold int_of_GLuint.
  rewrite Z.mod_small; lia.
Qed.

Section Properties.
Context {glm : Glm} {stb : StbImage}.

(** *** Lookup in the texture table *)

(** One script for both scans: they differ in the value a match yields. *)
Ltac scan_miss IH :=
  let e := fresh "e" in
  let He := fresh "He" in
  let Hlen := fresh "Hlen" in
  let Hmiss := fresh "Hmiss" in
  intros Hlen Hmiss; simpl;
  match goal with
  | |- context [texture_at ?a (Z.of_nat ?k)] =>
      destruct (texture_at_inside a k ltac:(lia)) as (e & He & ->)
  end;
  simpl;
  rewrite (proj2 (tag_is_false _ e)) by (eapply Hmiss; [| exact He]; lia);
  match goal with
  | |- context [Z.of_nat ?k + 1] =>
      replace (Z.of_nat k + 1) with (Z.of_nat (S k)) by lia
  end;
  apply IH; [lia | intros ? ? ?; apply Hmiss; lia].

Lemma FindTextureSlot_loop_miss (t : string) (s : SceneManager) (n k : nat) :
  (k + n <= length (m_textureIDs s))%nat ->
  (forall j e, (k <= j < k + n)%nat -> m_textureIDs s !! j = Some e -> tag e <> t) ->
  FindTextureSlot_loop n (Z.of_nat k) t s = Ok (-1).
Proof.
  revert k. induction n as [| n IH]; intros k; [done |]. scan_miss IH.
Qed.

Lemma FindTextureID_loop_miss (t : string) (s : SceneManager) (n k : nat) :
  (k + n <= length (m_textureIDs s))%nat ->
  (forall j e, (k <= j < k + n)%nat -> m_textureIDs s !! j = Some e -> tag e <> t) ->
  FindTextureID_loop n (Z.of_nat k) t s = Ok (-1).
Proof.
  revert k. induction n as [| n IH]; intros k; [done |]. scan_miss IH.
Qed.

Ltac scan_hit IH i :=
  let e0 := fresh "e0" in
  let He0 := fresh "He0" in
  let Hne := fresh "Hne" in
  let Hlen := fresh "Hlen" in
  let Hi := fresh "Hi" in
  let He := fresh "He" in
  let Htag := fresh "Htag" in
  let Hfirst := fresh "Hfirst" in
  intros Hlen Hi He Htag Hfirst; simpl;
  match goal with
  | |- context [texture_at ?a (Z.of_nat ?k)] =>
      destruct (texture_at_inside a k ltac:(lia)) as (e0 & He0 & ->);
      simpl;
      destruct (decide (k = i)) as [-> | Hne];
      [ rewrite He0 in He; injection He as ->;
        by rewrite (proj2 (tag_is_true _ _) Htag)
      | rewrite (proj2 (tag_is_false _ e0)) by (eapply Hfirst; [| exact He0]; lia);
        replace (Z.of_nat k + 1) with (Z.of_nat (S k)) by lia;
        apply IH; [lia | lia | done | done | intros ? ? ?; apply Hfirst; lia] ]
  end.

Lemma FindTextureSlot_loop_hit (t : string) (s : SceneManager) (n k i : nat)
    (e : TEXTURE_INFO) :
  (k + n <= length (m_textureIDs s))%nat ->
  (k <= i < k + n)%nat ->
  m_textureIDs s !! i = Some e ->
  tag e = t ->
  (forall j e', (k <= j < i)%nat -> m_textureIDs s !! j = Some e' -> tag e' <> t) ->
  FindTextureSlot_loop n (Z.of_nat k) t s = Ok (Z.of_nat i).
Proof.
  revert k. induction n as [| n IH]; intros k; [lia |]. scan_hit IH i.
Qed.

Lemma FindTextureID_loop_hit (t : string) (s : SceneManager) (n k i : nat)
    (e : TEXTURE_INFO) :
  (k + n <= length (m_textureIDs s))%nat ->
  (k <= i < k + n)%nat ->
  m_textureIDs s !! i = Some e ->
  tag e = t ->
  (forall j e', (k <= j < i)%nat -> m_textureIDs s !! j = Some e' -> tag e' <> t) ->
  FindTextureID_loop n (Z.of_nat k) t s = Ok (int_of_GLuint (ID e)).
Proof.
  revert k. induction n as [| n IH]; intros k; [lia |]. scan_hit IH i.
Qed.

(** C4.  Within the table's extent: when no registered slot carries the tag,
    [FindTextureID] and [FindTextureSlot] both return -1; when slot [i] is
    the first registered slot that carries it, [FindTextureSlot] returns [i]
    and [FindTextureID] returns that slot's handle (as the [int] the
    [GLuint] converts to, which is the handle itself below 2^31). *)
Theorem FindTexture_first_match_or_sentinel (t : string) (w : World) :
  in_extent w ->
  ((forall e, e ∈ registered w -> tag e <> t) ->
     FindTextureID t w = Ok (-1) /\ FindTextureSlot t w = Ok (-1))
  /\
  (forall i e,
     registered w !! i = Some e ->
     tag e = t ->
     (forall j e', (j < i)%nat -> registered w !! j = Some e' -> tag e' <> t) ->
     FindTextureSlot t w = Ok (Z.of_nat i)
     /\ FindTextureID t w = Ok (int_of_GLuint (ID e))
     /\ (0 <= ID e < 2 ^ 31 -> FindTextureID t w = Ok (ID e))).
Proof.
  unfold in_extent, registered, FindTextureID, FindTextureSlot.
  set (n := Z.to_nat (m_loadedTextures (this w))). intros Hext.
  change 0 with (Z.of_nat 0). split.
  - intros Hmiss.
    assert (forall j e, (0 <= j < 0 + n)%nat ->
              m_textureIDs (this w) !! j = Some e -> tag e <> t) as Hmiss'.
    { intros j e Hj He. apply Hmiss.
      apply list_elem_of_lookup. exists j. rewrite lookup_take_lt by lia. done. }
    split.
    + apply FindTextureID_loop_miss; [lia | done].
    + apply FindTextureSlot_loop_miss; [lia | done].
  - intros i e Hi Htag Hfirst.
    apply lookup_take_Some in Hi as [Hi Hlt].
    assert (forall j e', (0 <= j < i)%nat ->
              m_textureIDs (this w) !! j = Some e' -> tag e' <> t) as Hfirst'.
    { intros j e' Hj He'. apply (Hfirst j); [lia |].
      rewrite lookup_take_lt by lia. done. }
    assert (FindTextureID_loop n (Z.of_nat 0) t (this w)
            = Ok (int_of_GLuint (ID e))) as HID.
    { apply FindTextureID_loop_hit with (i := i); try done; lia. }
    split; [| split].
    + apply FindTextureSlot_loop_hit with (e := e); try done; lia.
    + done.
    + intros Hsmall. by rewrite HID, int_of_GLuint_small.
Qed.

(** *** Registration *)

Lemma CreateGLTexture_false (filename t : string) (w : World) (w' : World) :
  CreateGLTexture filename t w = Ok (false, w') -> this w' = this w.
Proof.
  unfold CreateGLTexture.
  destruct (stbi_load filename) as [image |]; [| by intros [= <-]].
  simpl.
  destruct (colorChannels image =? 3); [| destruct (colorChannels image =? 4)].
  3: by intros [= <-].
  all: destruct (texture_store _ _ _); simpl; by intros [=].
Qed.

(** C5.  When the image cannot be decoded, or decodes with a channel count
    that is neither 3 nor 4, [CreateGLTexture] returns [false]; and whenever
    it returns [false], the table and the count are as they were before the
    call. *)
Theorem CreateGLTexture_failure_leaves_registry (filename t : string) (w : World) :
  ((stbi_load filename = None
    \/ exists image, stbi_load filename = Some image
         /\ colorChannels image <> 3 /\ colorChannels image <> 4) ->
   exists w', CreateGLTexture filename t w = Ok (false, w'))
  /\ (forall w', CreateGLTexture filename t w = Ok (false, w') ->
        m_textureIDs (this w') = m_textureIDs (this w)
        /\ m_loadedTextures (this w') = m_loadedTextures (this w)
        /\ this w' = this w).
Proof.
  split.
  - intros Hbad. unfold CreateGLTexture.
    destruct Hbad as [-> | (image & -> & H3 & H4)]; [by eexists |].
    simpl. apply Z.eqb_neq in H3, H4. rewrite H3, H4. by eexists.
  - intros w' Hw'. apply CreateGLTexture_false in Hw'. by rewrite Hw'.
Qed.

(** *** Materials *)

(** C1.  With the three materials of [DefineObjectMaterials] defined and
    nothing else, looking up the undefined tag "plastic" returns [true], the
    value a successful lookup returns, and hands back the caller's material
    untouched. *)
Theorem FindMaterial_miss_reports_success
    (sm : option (gmap string uniform)) (g : GLContext)
    (material : OBJECT_MATERIAL) :
  FindMaterial "plastic" material
    (DefineObjectMaterials {| this := SceneManager_new sm; gl := g |})
  = (true, material).
Proof. reflexivity. Qed.

(** X1.  The lookup that does match: "wood" yields the wood material's colours
    and shininess; the tag of the caller's material stays. *)
Lemma FindMaterial_wood
    (sm : option (gmap string uniform)) (g : GLContext)
    (material : OBJECT_MATERIAL) :
  FindMaterial "wood" material
    (DefineObjectMaterials {| this := SceneManager_new sm; gl := g |})
  = (true,
     {| diffuseColor :=
          (float_literal "0.2f", float_literal "0.2f", float_literal "0.3f");
        specularColor :=
          (float_literal "0.0f", float_literal "0.0f", float_literal "0.0f");
        shininess := float_literal "0.1";
        material_tag := material_tag material |}).
Proof. reflexivity. Qed.

Lemma FindMaterial_nonempty (t : string) (material m : OBJECT_MATERIAL) (w : World) :
  (FindMaterial t material (push_back m w)).1 = true.
Proof.
  unfold FindMaterial, push_back. simpl.
  rewrite bool_decide_eq_false_2 by (rewrite length_app; simpl; lia).
  by destruct (FindMaterial_loop _ _ _).
Qed.

(** *** Uniform upload *)

(** C3.  [SetTransformations] hands the shader manager, under the name
    "model", the product T(t) · Rz(rz) · Ry(ry) · Rx(rx) · S(s), each angle
    passed through [glm::radians]; without a shader manager it hands over
    nothing. *)
Theorem SetTransformations_uploads_product
    (s : vec3) (rx ry rz : float) (t : vec3) (w : World) :
  SetTransformations s rx ry rz t w =
  match m_pShaderManager (this w) with
  | Some u =>
      Ok {| this :=
              set_shader
                (Some (<["model" :=
                           Mat4Value (ModelMatrix.ComposeModelMatrix s rx ry rz t)]> u))
                (this w);
            gl := gl w |}
  | None => Ok w
  end.
Proof.
  unfold SetTransformations, setValue.
  destruct (m_pShaderManager (this w)); reflexivity.
Qed.

(** C10.  Without a shader manager [SetTransformations], [SetShaderColor],
    [SetShaderTexture] and [SetTextureUVScale] return at once and change
    nothing; [SetShaderMaterial], as soon as one material is defined, calls
    through the null pointer. *)
Theorem null_shader_manager_guards
    (uninitialised : OBJECT_MATERIAL)
    (s : SceneManager) (g : GLContext) (m : OBJECT_MATERIAL)
    (v3 p3 : vec3) (a b c d : float) (t : string) :
  let w := {| this := set_shader None s; gl := g |} in
  SetTransformations v3 a b c p3 w = Ok w
  /\ SetShaderColor a b c d w = Ok w
  /\ SetShaderTexture t w = Ok w
  /\ SetTextureUVScale a b w = Ok w
  /\ SetShaderMaterial uninitialised t (push_back m w) = NullDereference.
Proof.
  intros w. repeat split.
  unfold SetShaderMaterial.
  rewrite bool_decide_eq_true_2
    by (unfold push_back; simpl; rewrite length_app; simpl; lia).
  pose proof (FindMaterial_nonempty t uninitialised m w) as Hfound.
  destruct (FindMaterial t uninitialised (push_back m w)) as [bReturn material].
  simpl in Hfound. subst bReturn. reflexivity.
Qed.

(** *** Binding *)

(** What the loop of [BindGLTextures] leaves behind when it runs [n] times
    from slot [k]: units [k .. k+n-1] hold the handles of their slots, every
    other unit is as before, and the scene manager is not written to. *)
Lemma BindGLTextures_loop_units (n k : nat) (w : World) :
  (k + n <= length (m_textureIDs (this w)))%nat ->
  exists w',
    BindGLTextures_loop n (Z.of_nat k) w = Ok w'
    /\ this w' = this w
    /\ gl_next_texture (gl w') = gl_next_texture (gl w)
    /\ (forall j e, (k <= j < k + n)%nat ->
          m_textureIDs (this w) !! j = Some e ->
          gl_bound_2D (gl w') !! Z.of_nat j = Some (ID e))
    /\ (forall u, ~ (Z.of_nat k <= u < Z.of_nat (k + n)) ->
          gl_bound_2D (gl w') !! u = gl_bound_2D (gl w) !! u).
Proof.
  revert k w. induction n as [| n IH]; intros k w Hlen.
  - exists w. do 3 (split; [done |]). split; [intros; lia | done].
  - simpl.
    destruct (texture_at_inside (m_textureIDs (this w)) k ltac:(lia))
      as (e & He & ->).
    simpl. replace (Z.of_nat k + 1) with (Z.of_nat (S k)) by lia.
    set (w1 := {| this := this w; gl := _ |}).
    destruct (IH (S k) w1 ltac:(simpl; lia)) as (w' & -> & Hthis & Hnext & Hin & Hout).
    exists w'. split; [done |]. split; [done |]. split; [done |]. split.
    + intros j e' Hj He'.
      destruct (decide (j = k)) as [-> | Hne].
      * rewrite Hout by lia. simpl.
        rewrite lookup_insert_eq. congruence.
      * apply Hin; [lia | done].
    + intros u Hu. rewrite Hout by lia. simpl.
      apply lookup_insert_ne. lia.
Qed.

(** C9.  Within the table's extent [BindGLTextures] returns, leaves the
    scene manager as it was, binds on unit [i] the handle of slot [i] for
    every [i] below the count and touches no other unit; a second call right
    after it ends with the same binding on every unit. *)
Theorem BindGLTextures_idempotent (w : World) :
  in_extent w ->
  exists w1 w2,
    BindGLTextures w = Ok w1
    /\ BindGLTextures w1 = Ok w2
    /\ this w1 = this w
    /\ this w2 = this w
    /\ (forall i e, registered w !! i = Some e ->
          gl_bound_2D (gl w1) !! Z.of_nat i = Some (ID e))
    /\ (forall u, ~ (0 <= u < m_loadedTextures (this w)) ->
          gl_bound_2D (gl w1) !! u = gl_bound_2D (gl w) !! u)
    /\ gl_bound_2D (gl w2) = gl_bound_2D (gl w1).
Proof.
  unfold in_extent, registered, BindGLTextures. intros Hext.
  set (n := Z.to_nat (m_loadedTextures (this w))) in *.
  change 0 with (Z.of_nat 0).
  destruct (BindGLTextures_loop_units n 0 w ltac:(lia))
    as (w1 & H1 & Hthis1 & _ & Hin1 & Hout1).
  destruct (BindGLTextures_loop_units n 0 w1 ltac:(rewrite Hthis1; lia))
    as (w2 & H2 & Hthis2 & _ & Hin2 & Hout2).
  exists w1, w2. rewrite Hthis1. fold n.
  split; [done |]. split; [done |]. split; [done |].
  split; [congruence |]. split; [| split].
  - intros i e Hi. apply lookup_take_Some in Hi as [Hi Hlt].
    apply Hin1; [lia | done].
  - intros u Hu. apply Hout1. lia.
  - apply map_eq. intros u.
    destruct (decide (0 <= u < Z.of_nat n)) as [Hu | Hu].
    + destruct (lookup_lt_is_Some_2 (m_textureIDs (this w)) (Z.to_nat u)
                  ltac:(lia)) as [e He].
      replace u with (Z.of_nat (Z.to_nat u)) by lia.
      rewrite (Hin1 _ e) by (done || lia).
      apply Hin2; [lia | by rewrite Hthis1].
    + apply Hout2. lia.
Qed.

(** *** The shape of the table under registration *)

Lemma filled_new (sm : option (gmap string uniform)) (g : GLContext) :
  filled [] {| this := SceneManager_new sm; gl := g |}.
Proof. by repeat split; simpl; try lia. Qed.

Lemma filled_in_extent (regs : list TEXTURE_INFO) (w : World) :
  filled regs w -> in_extent w.
Proof.
  intros (Hn & Ha & Hle). unfold in_extent.
  rewrite Hn, Ha, Nat2Z.id, length_app, length_replicate. lia.
Qed.

Lemma accepted_tags_cons (filename t : string) (calls : list (string * string)) :
  accepted_tags ((filename, t) :: calls) =
  if accepted filename then t :: accepted_tags calls else accepted_tags calls.
Proof.
  unfold accepted_tags.
  destruct (accepted filename) eqn:Hacc.
  - by rewrite filter_cons_True by done.
  - by rewrite filter_cons_False by (simpl; congruence).
Qed.

Lemma CreateGLTexture_rejected (filename t : string) (w : World) :
  accepted filename = false ->
  exists w', CreateGLTexture filename t w = Ok (false, w') /\ this w' = this w.
Proof.
  unfold accepted, CreateGLTexture. intros Hacc.
  destruct (stbi_load filename) as [image |]; [| by eexists].
  apply orb_false_iff in Hacc as [-> ->]. by eexists.
Qed.

Lemma CreateGLTexture_appends (filename t : string) (regs : list TEXTURE_INFO)
    (w : World) :
  accepted filename = true ->
  filled regs w ->
  (length regs < 16)%nat ->
  exists w',
    CreateGLTexture filename t w = Ok (true, w')
    /\ filled (regs ++ [{| tag := t; ID := gl_next_texture (gl w) |}]) w'
    /\ gl_next_texture (gl w') = gl_next_texture (gl w) + 1.
Proof.
  unfold accepted, CreateGLTexture. intros Hacc (Hn & Ha & _) Hlt.
  destruct (stbi_load filename) as [image |]; [| done].
  simpl. rewrite Hn, Ha. unfold texture_store. rewrite texture_at_nat.
  rewrite lookup_app_r, Nat.sub_diag by lia.
  destruct (16 - length regs)%nat as [| free] eqn:Hfree; [lia |].
  simpl. rewrite Nat2Z.id.
  rewrite insert_app_r_alt, Nat.sub_diag by lia. simpl.
  assert (forall g : GLContext,
    exists w',
      Ok (true,
          {| this :=
               set_textures
                 (regs ++ {| tag := t; ID := gl_next_texture (gl w) |}
                       :: replicate free initial_slot)
                 (Z.of_nat (length regs) + 1) (this w);
             gl := g |}) = Ok (true, w')
      /\ filled (regs ++ [{| tag := t; ID := gl_next_texture (gl w) |}]) w'
      /\ gl_next_texture (gl w') = gl_next_texture g) as Hdone.
  { intros g. eexists. split; [done |]. split; [| done].
    unfold filled. simpl. rewrite length_app. simpl.
    replace (16 - (length regs + 1))%nat with free by lia.
    rewrite <- app_assoc. simpl. repeat split; lia. }
  destruct (colorChannels image =? 3); [apply Hdone |].
  destruct (colorChannels image =? 4); [apply Hdone | done].
Qed.

Lemma CreateGLTexture_overflows (filename t : string) (regs : list TEXTURE_INFO)
    (w : World) :
  accepted filename = true ->
  filled regs w ->
  length regs = 16%nat ->
  CreateGLTexture filename t w = OutOfBounds 16.
Proof.
  unfold accepted, CreateGLTexture. intros Hacc (Hn & Ha & _) Hfull.
  destruct (stbi_load filename) as [image |]; [| done].
  simpl. rewrite Hn, Ha, Hfull. unfold texture_store. rewrite texture_at_nat.
  rewrite lookup_ge_None_2 by (rewrite length_app, length_replicate; lia).
  destruct (colorChannels image =? 3); [done |].
  destruct (colorChannels image =? 4); done.
Qed.

Lemma register_all_fills (calls : list (string * string))
    (regs : list TEXTURE_INFO) (w : World) :
  filled regs w ->
  (length regs + length (accepted_tags calls) <= 16)%nat ->
  exists w' regs',
    register_all calls w = Ok w'
    /\ filled (regs ++ regs') w'
    /\ tag <$> regs' = accepted_tags calls.
Proof.
  revert regs w. induction calls as [| [filename t] calls IH]; intros regs w Hw Hroom.
  - exists w, []. by rewrite app_nil_r.
  - rewrite accepted_tags_cons in Hroom. simpl.
    rewrite accepted_tags_cons.
    destruct (accepted filename) eqn:Hacc.
    + simpl in Hroom.
      destruct (CreateGLTexture_appends filename t regs w Hacc Hw ltac:(lia))
        as (w1 & -> & Hw1 & _).
      simpl.
      destruct (IH _ w1 Hw1) as (w' & regs' & -> & Hw' & Htags).
      { rewrite length_app. simpl. lia. }
      exists w', ({| tag := t; ID := gl_next_texture (gl w) |} :: regs').
      split; [done |].
      rewrite <- app_assoc in Hw'. split; [done |].
      by rewrite fmap_cons, Htags.
    + destruct (CreateGLTexture_rejected filename t w Hacc) as (w1 & -> & Hthis).
      simpl. apply IH; [| done].
      unfold filled. by rewrite Hthis.
Qed.

Lemma register_all_overflows (calls : list (string * string))
    (regs : list TEXTURE_INFO) (w : World) :
  filled regs w ->
  (16 < length regs + length (accepted_tags calls))%nat ->
  register_all calls w = OutOfBounds 16.
Proof.
  revert regs w. induction calls as [| [filename t] calls IH]; intros regs w Hw Hover.
  - destruct Hw as (_ & _ & Hle). simpl in Hover. lia.
  - rewrite accepted_tags_cons in Hover. simpl.
    destruct (accepted filename) eqn:Hacc.
    + simpl in Hover.
      destruct (decide (length regs = 16%nat)) as [Hfull | Hroom].
      * by rewrite (CreateGLTexture_overflows filename t regs w).
      * destruct Hw as (Hn & Ha & Hle).
        destruct (CreateGLTexture_appends filename t regs w Hacc
                    (conj Hn (conj Ha Hle)) ltac:(lia)) as (w1 & -> & Hw1 & _).
        simpl. apply (IH _ w1 Hw1). rewrite length_app. simpl. lia.
    + destruct (CreateGLTexture_rejected filename t w Hacc) as (w1 & -> & Hthis).
      simpl. apply (IH regs); [| done].
      unfold filled. by rewrite Hthis.
Qed.

(** C8, as amended.  Start from the constructor and make any sequence of
    [CreateGLTexture] calls of which at most 16 are accepted.  The run
    returns; the count is the number of accepted calls; the slots below the
    count carry the accepted tags in call order, repeated tags included; and
    every slot from the count on is as the constructor left it. *)
Theorem registered_slots_contiguous
    (sm : option (gmap string uniform)) (g : GLContext)
    (calls : list (string * string)) :
  (length (accepted_tags calls) <= 16)%nat ->
  exists w,
    register_all calls {| this := SceneManager_new sm; gl := g |} = Ok w
    /\ m_loadedTextures (this w) = Z.of_nat (length (accepted_tags calls))
    /\ length (m_textureIDs (this w)) = 16%nat
    /\ tag <$> registered w = accepted_tags calls
    /\ drop (length (accepted_tags calls)) (m_textureIDs (this w))
       = replicate (16 - length (accepted_tags calls)) initial_slot.
Proof.
  intros Hroom.
  destruct (register_all_fills calls [] _ (filled_new sm g) ltac:(simpl; lia))
    as (w & regs & Hrun & (Hn & Ha & Hle) & Htags).
  simpl in Hn, Ha.
  assert (length regs = length (accepted_tags calls)) as Hlen
    by (by rewrite <- Htags, length_fmap).
  exists w. split; [done |]. unfold registered.
  rewrite Hn, Ha, Nat2Z.id, <- Hlen.
  split; [done |]. split; [| split].
  - rewrite length_app, length_replicate. lia.
  - by rewrite take_app_length.
  - by rewrite drop_app_length.
Qed.

(** *** Teardown *)

(** Every OpenGL call the loop of [DestroyGLTextures] issues is a
    [glGenTextures]. *)
Lemma DestroyGLTextures_loop_calls (n k : nat) (w : World) :
  (k + n <= length (m_textureIDs (this w)))%nat ->
  exists w' names,
    DestroyGLTextures_loop n (Z.of_nat k) w = Ok w'
    /\ gl_calls (gl w') = gl_calls (gl w) ++ (glGenTextures <$> names)
    /\ length names = n.
Proof.
  revert k w. induction n as [| n IH]; intros k w Hlen.
  - exists w, []. by rewrite app_nil_r.
  - simpl. unfold texture_store.
    destruct (texture_at_inside (m_textureIDs (this w)) k ltac:(lia))
      as (e & He & ->).
    simpl. replace (Z.of_nat k + 1) with (Z.of_nat (S k)) by lia.
    set (w1 := {| this := _; gl := _ |}).
    destruct (IH (S k) w1) as (w' & names & -> & Hcalls & Hnames).
    { subst w1. simpl. rewrite length_insert. lia. }
    exists w', (gl_next_texture (gl w) :: names).
    split; [done |]. split; [| simpl; lia].
    rewrite Hcalls. subst w1. simpl. by rewrite <- app_assoc.
Qed.

Lemma DestroyGLTextures_only_generates (w : World) :
  in_extent w ->
  exists w' names,
    DestroyGLTextures w = Ok w'
    /\ gl_calls (gl w') = gl_calls (gl w) ++ (glGenTextures <$> names)
    /\ length names = Z.to_nat (m_loadedTextures (this w)).
Proof.
  intros Hext. apply (DestroyGLTextures_loop_calls _ 0 w). exact Hext.
Qed.

(** *** Drawing with an unregistered texture *)

Lemma with_uniforms_id (u : gmap string uniform) (w : World) :
  m_pShaderManager (this w) = Some u -> with_uniforms u w = w.
Proof. destruct w as [[] ?]. simpl. by intros ->. Qed.

Lemma setValue_with_manager (name : string) (v : uniform) (w : World)
    (u : gmap string uniform) :
  m_pShaderManager (this w) = Some u ->
  setValue name v w = Ok (with_uniforms (<[name := v]> u) w).
Proof. unfold setValue. by intros ->. Qed.

Lemma FindTextureSlot_miss (t : string) (w : World) :
  in_extent w ->
  (forall e, e ∈ registered w -> tag e <> t) ->
  FindTextureSlot t w = Ok (-1).
Proof.
  unfold in_extent, registered, FindTextureSlot. intros Hext Hmiss.
  apply (FindTextureSlot_loop_miss t (this w) _ 0); [lia |].
  intros j e Hj He. apply Hmiss.
  apply list_elem_of_lookup. exists j. by rewrite lookup_take_lt by lia.
Qed.

Lemma SetShaderTexture_miss (t : string) (w : World) (u : gmap string uniform) :
  in_extent w ->
  (forall e, e ∈ registered w -> tag e <> t) ->
  m_pShaderManager (this w) = Some u ->
  SetShaderTexture t w =
  Ok (with_uniforms
        (<["objectTexture" := Sampler2DValue (-1)]>
           (<["bUseTexture" := IntValue 1]> u)) w).
Proof.
  intros Hext Hmiss Hu. unfold SetShaderTexture. rewrite Hu.
  rewrite (setValue_with_manager _ _ _ _ Hu). simpl.
  rewrite (FindTextureSlot_miss t (with_uniforms _ w)) by done.
  reflexivity.
Qed.

Lemma SetShaderMaterial_with_manager (uninitialised : OBJECT_MATERIAL)
    (t : string) (w : World) (u : gmap string uniform) :
  m_pShaderManager (this w) = Some u ->
  exists u',
    SetShaderMaterial uninitialised t w = Ok (with_uniforms u' w)
    /\ u' !! "bUseTexture" = u !! "bUseTexture"
    /\ u' !! "objectTexture" = u !! "objectTexture".
Proof.
  intros Hu. unfold SetShaderMaterial.
  case_bool_decide.
  2: { exists u. by rewrite (with_uniforms_id u w). }
  destruct (FindMaterial t uninitialised w) as [[] material].
  2: { exists u. by rewrite (with_uniforms_id u w). }
  rewrite (setValue_with_manager _ _ _ _ Hu). simpl.
  eexists. split; [reflexivity |].
  by rewrite !lookup_insert_ne.
Qed.

(** C6, as amended.  When no registered slot carries the tag (table within
    its extent), [SetShaderTexture] returns normally and writes nothing but
    uniforms: without a shader manager it does nothing; with one it sets
    "bUseTexture" to 1 and uploads the sentinel -1 as the "objectTexture"
    sampler.  A draw issued right after it goes ahead whenever there is a
    mesh object, with or without a shader manager.  In the desk step of
    [RenderScene], where [SetTextureUVScale] and [SetShaderMaterial] stand
    between the two, the plane is drawn with both values still in the store
    when there is a shader manager. *)
Theorem SetShaderTexture_unregistered_uploads_sentinel
    (uninitialised : OBJECT_MATERIAL) (t : string) (w : World) :
  in_extent w ->
  (forall e, e ∈ registered w -> tag e <> t) ->
  (m_pShaderManager (this w) = None -> SetShaderTexture t w = Ok w)
  /\ (forall u, m_pShaderManager (this w) = Some u ->
        SetShaderTexture t w =
        Ok (with_uniforms
              (<["objectTexture" := Sampler2DValue (-1)]>
                 (<["bUseTexture" := IntValue 1]> u)) w))
  /\ (forall m drawn,
        m_basicMeshes (this w) = Some drawn ->
        exists w1 w2,
          SetShaderTexture t w = Ok w1
          /\ Draw m w1 = Ok w2
          /\ m_basicMeshes (this w2) = Some (drawn ++ [m])
          /\ m_textureIDs (this w2) = m_textureIDs (this w)
          /\ m_loadedTextures (this w2) = m_loadedTextures (this w))
  /\ (t = "DeskTexture" ->
      forall u drawn,
        m_pShaderManager (this w) = Some u ->
        m_basicMeshes (this w) = Some drawn ->
        exists w',
          RenderScene_desk uninitialised w = Ok w'
          /\ m_basicMeshes (this w') = Some (drawn ++ [PlaneMesh])
          /\ uniforms w' !! "bUseTexture" = Some (IntValue 1)
          /\ uniforms w' !! "objectTexture" = Some (Sampler2DValue (-1))
          /\ m_textureIDs (this w') = m_textureIDs (this w)
          /\ m_loadedTextures (this w') = m_loadedTextures (this w)).
Proof.
  intros Hext Hmiss. split; [| split; [| split]].
  - unfold SetShaderTexture. by intros ->.
  - intros u Hu. by apply SetShaderTexture_miss.
  - intros m drawn Hdrawn.
    destruct (m_pShaderManager (this w)) as [u |] eqn:Hu.
    + rewrite (SetShaderTexture_miss t w u Hext Hmiss Hu).
      eexists. eexists. split; [reflexivity |].
      unfold Draw. simpl. rewrite Hdrawn. split; [reflexivity | done].
    + exists w. eexists. split; [unfold SetShaderTexture; by rewrite Hu |].
      unfold Draw. rewrite Hdrawn. split; [reflexivity | done].
  - intros -> u drawn Hu Hdrawn.
    unfold RenderScene_desk, SetTransformations, SetTextureUVScale.
    rewrite Hu, (setValue_with_manager _ _ _ _ Hu). simpl.
    rewrite (SetShaderTexture_miss "DeskTexture" (with_uniforms _ w) _ Hext Hmiss eq_refl).
    simpl.
    match goal with
    | |- context [SetShaderMaterial _ _ ?w1] =>
        destruct (SetShaderMaterial_with_manager uninitialised "wood" w1 _ eq_refl)
          as (u' & Hmat & Hflag & Hsampler)
    end.
    unfold with_uniforms in *. simpl in *. rewrite Hmat. simpl.
    unfold Draw. simpl. rewrite Hdrawn.
    eexists. split; [reflexivity |]. unfold uniforms. simpl.
    split; [done |].
    rewrite Hflag, Hsampler.
    rewrite !lookup_insert_ne by done. rewrite lookup_insert_eq.
    rewrite lookup_insert_ne by done. rewrite lookup_insert_eq. done.
Qed.

End Properties.

(** ** Properties of the remaining code *)

Section SceneProperties.
Context {glm : Glm} {stb : StbImage}.

(** Lookups in a store built by a chain of uploads. *)
Ltac store_lookup :=
  unfold uniforms, with_uniforms, g_ModelName, g_ColorValueName,
    g_TextureValueName, g_UseTextureName, g_UseLightingName;
  cbn [from_option id this m_pShaderManager m_basicMeshes set_shader set_meshes];
  repeat (rewrite lookup_insert_eq || rewrite lookup_insert_ne by done).

(** *** The two scans as one search *)

Ltac scan_find IH :=
  let e := fresh "e" in
  let He := fresh "He" in
  let Htag := fresh "Htag" in
  let Hlen := fresh "Hlen" in
  intros Hlen; simpl;
  match goal with
  | |- context [texture_at ?a (Z.of_nat ?k)] =>
      destruct (texture_at_inside a k ltac:(lia)) as (e & He & ->);
      rewrite (drop_S _ e k He); simpl;
      destruct (tag_is _ e) eqn:Htag;
      [ apply tag_is_true in Htag; rewrite decide_True by done; simpl;
        try (f_equal; lia); done
      | apply tag_is_false in Htag; rewrite decide_False by done;
        replace (Z.of_nat k + 1) with (Z.of_nat (S k)) by lia;
        rewrite IH by lia;
        match goal with
        | |- context [list_find ?P ?l] => destruct (list_find P l) as [[? ?] |]
        end; simpl; try (f_equal; lia); done ]
  end.

Lemma FindTextureSlot_loop_find (t : string) (s : SceneManager) (n k : nat) :
  (k + n <= length (m_textureIDs s))%nat ->
  FindTextureSlot_loop n (Z.of_nat k) t s =
  Ok (from_option (fun p => Z.of_nat (k + p.1)) (-1)
        (list_find (fun e => tag e = t) (take n (drop k (m_textureIDs s))))).
Proof.
  revert k. induction n as [| n IH]; intros k; [done |]. scan_find IH.
Qed.

Lemma FindTextureID_loop_find (t : string) (s : SceneManager) (n k : nat) :
  (k + n <= length (m_textureIDs s))%nat ->
  FindTextureID_loop n (Z.of_nat k) t s =
  Ok (from_option (fun p => int_of_GLuint (ID p.2)) (-1)
        (list_find (fun e => tag e = t) (take n (drop k (m_textureIDs s))))).
Proof.
  revert k. induction n as [| n IH]; intros k; [done |]. scan_find IH.
Qed.

Lemma FindTextureSlot_find (t : string) (w : World) :
  in_extent w ->
  FindTextureSlot t w =
  Ok (from_option (fun p => Z.of_nat p.1) (-1) (first_match t w)).
Proof.
  intros Hext. unfold FindTextureSlot, first_match, registered.
  exact (FindTextureSlot_loop_find t (this w) _ 0 Hext).
Qed.

Lemma FindTextureID_find (t : string) (w : World) :
  in_extent w ->
  FindTextureID t w =
  Ok (from_option (fun p => int_of_GLuint (ID p.2)) (-1) (first_match t w)).
Proof.
  intros Hext. unfold FindTextureID, first_match, registered.
  exact (FindTextureID_loop_find t (this w) _ 0 Hext).
Qed.

(** X2.  Within the extent both scans return; they agree on the slot; and
    the slot is -1 or an index below the count. *)
Theorem FindTexture_lookups_agree (t : string) (w : World) :
  in_extent w ->
  exists z,
    FindTextureSlot t w = Ok z
    /\ -1 <= z < Z.max 0 (m_loadedTextures (this w))
    /\ (z = -1 -> FindTextureID t w = Ok (-1))
    /\ (0 <= z ->
        exists e, m_textureIDs (this w) !! Z.to_nat z = Some e
          /\ tag e = t
          /\ FindTextureID t w = Ok (int_of_GLuint (ID e))).
Proof.
  intros Hext.
  rewrite (FindTextureSlot_find t w Hext), (FindTextureID_find t w Hext).
  unfold first_match.
  destruct (list_find _ (registered w)) as [[i e] |] eqn:Hfind; simpl.
  - apply list_find_Some in Hfind as (Hi & Htag & _).
    apply lookup_take_Some in Hi as [Hi Hlt].
    exists (Z.of_nat i). split; [done |]. split; [lia |]. split; [lia |].
    intros _. exists e. by rewrite Nat2Z.id.
  - exists (-1). split; [done |]. split; [lia |]. split; [done | lia].
Qed.

(** *** Registration, then lookup *)

Lemma texture_at_Z (a : list TEXTURE_INFO) (i : Z) (e : TEXTURE_INFO) :
  0 <= i -> a !! Z.to_nat i = Some e -> texture_at a i = Ok e.
Proof.
  intros Hpos He. unfold texture_at.
  destruct (Z.ltb_spec i 0); [lia |]. by rewrite He.
Qed.

Lemma CreateGLTexture_accepted (filename t : string) (w : World) :
  accepted filename = true ->
  0 <= m_loadedTextures (this w) ->
  (Z.to_nat (m_loadedTextures (this w)) < length (m_textureIDs (this w)))%nat ->
  exists g',
    CreateGLTexture filename t w =
    Ok (true,
        {| this :=
             set_textures
               (<[Z.to_nat (m_loadedTextures (this w)) :=
                    {| tag := t; ID := gl_next_texture (gl w) |}]>
                  (m_textureIDs (this w)))
               (m_loadedTextures (this w) + 1) (this w);
           gl := g' |})
    /\ gl_next_texture g' = gl_next_texture (gl w) + 1
    /\ gl_active_unit g' = gl_active_unit (gl w)
    /\ gl_bound_2D g' =
       <[gl_active_unit (gl w) := 0]>
         (<[gl_active_unit (gl w) := gl_next_texture (gl w)]> (gl_bound_2D (gl w))).
Proof.
  unfold accepted, CreateGLTexture. intros Hacc Hpos Hroom.
  destruct (stbi_load filename) as [image |]; [| done].
  simpl. unfold texture_store.
  destruct (lookup_lt_is_Some_2 _ _ Hroom) as [e He].
  rewrite (texture_at_Z _ _ e Hpos He). simpl.
  destruct (colorChannels image =? 3); [by eexists |].
  destruct (colorChannels image =? 4); [by eexists | done].
Qed.

Lemma registered_after_store (t : string) (h : Z) (w : World) (g : GLContext) :
  0 <= m_loadedTextures (this w) ->
  (Z.to_nat (m_loadedTextures (this w)) < length (m_textureIDs (this w)))%nat ->
  registered
    {| this :=
         set_textures
           (<[Z.to_nat (m_loadedTextures (this w)) := {| tag := t; ID := h |}]>
              (m_textureIDs (this w)))
           (m_loadedTextures (this w) + 1) (this w);
       gl := g |}
  = registered w ++ [{| tag := t; ID := h |}].
Proof.
  intros Hpos Hroom. unfold registered. simpl.
  replace (Z.to_nat (m_loadedTextures (this w) + 1))
    with (S (Z.to_nat (m_loadedTextures (this w)))) by lia.
  rewrite (take_S_r _ _ {| tag := t; ID := h |})
    by (by apply list_lookup_insert_eq).
  by rewrite take_insert_ge by lia.
Qed.

(** X3.  A registration that goes through is found again.  The new tag, if
    it was not registered before, is found at the old count with the handle
    [glGenTextures] handed out; every other lookup, that of a tag registered
    before included, answers as it did. *)
Theorem CreateGLTexture_then_find (filename t : string) (w : World) :
  accepted filename = true ->
  0 <= m_loadedTextures (this w) ->
  (Z.to_nat (m_loadedTextures (this w)) < length (m_textureIDs (this w)))%nat ->
  exists w',
    CreateGLTexture filename t w = Ok (true, w')
    /\ registered w' = registered w ++ [{| tag := t; ID := gl_next_texture (gl w) |}]
    /\ (FindTextureSlot t w = Ok (-1) ->
        FindTextureSlot t w' = Ok (m_loadedTextures (this w))
        /\ FindTextureID t w' = Ok (int_of_GLuint (gl_next_texture (gl w))))
    /\ (forall t', t' <> t \/ FindTextureSlot t' w <> Ok (-1) ->
        FindTextureSlot t' w' = FindTextureSlot t' w
        /\ FindTextureID t' w' = FindTextureID t' w).
Proof.
  intros Hacc Hpos Hroom.
  destruct (CreateGLTexture_accepted filename t w Hacc Hpos Hroom)
    as (g' & Hrun & _).
  eexists. split; [exact Hrun |].
  pose proof (registered_after_store t (gl_next_texture (gl w)) w g' Hpos Hroom)
    as Hreg.
  split; [exact Hreg |].
  assert (in_extent w) as Hext by (unfold in_extent; lia).
  match type of Hreg with registered ?w1 = _ => set (w' := w1) in * end.
  assert (in_extent w') as Hext'.
  { unfold in_extent, w'. simpl. rewrite length_insert. lia. }
  assert (length (registered w) = Z.to_nat (m_loadedTextures (this w))) as Hlen.
  { unfold registered. rewrite length_take. unfold in_extent in Hext. lia. }
  assert (forall t',
    first_match t' w' =
    match first_match t' w with
    | Some p => Some p
    | None =>
        if decide (t = t')
        then Some (Z.to_nat (m_loadedTextures (this w)),
                   {| tag := t; ID := gl_next_texture (gl w) |})
        else None
    end) as Hfirst.
  { intros t'. unfold first_match. rewrite Hreg.
    destruct (list_find _ (registered w)) as [[i e] |] eqn:Hfind.
    - by apply list_find_app_l.
    - rewrite (list_find_app_r _ _ _ Hfind). simpl.
      destruct (decide (t = t')); simpl; [by rewrite Hlen | done]. }
  split.
  - intros Hmiss.
    rewrite (FindTextureSlot_find t w Hext) in Hmiss.
    rewrite (FindTextureSlot_find t w' Hext'), (FindTextureID_find t w' Hext').
    rewrite Hfirst.
    destruct (first_match t w) as [[i e] |]; simpl in Hmiss.
    + injection Hmiss as Hmiss. lia.
    + rewrite decide_True by done. simpl. split; [f_equal; lia | done].
  - intros t' Hother.
    rewrite (FindTextureSlot_find t' w Hext) in Hother.
    rewrite (FindTextureSlot_find t' w' Hext'), (FindTextureID_find t' w' Hext').
    rewrite (FindTextureSlot_find t' w Hext), (FindTextureID_find t' w Hext).
    rewrite Hfirst.
    destruct (first_match t' w) as [[i e] |]; [done |].
    destruct (decide (t = t')) as [-> | Hne]; [| done].
    destruct Hother as [Hother | Hother]; by destruct Hother.
Qed.

(** *** Materials *)

Lemma FindMaterial_loop_first (ms : list OBJECT_MATERIAL) (t : string)
    (material : OBJECT_MATERIAL) (i : nat) (m : OBJECT_MATERIAL) :
  ms !! i = Some m ->
  material_tag m = t ->
  (forall j m', (j < i)%nat -> ms !! j = Some m' -> material_tag m' <> t) ->
  FindMaterial_loop ms t material =
  (true,
   {| diffuseColor := diffuseColor m;
      specularColor := specularColor m;
      shininess := shininess m;
      material_tag := material_tag material |}).
Proof.
  revert i. induction ms as [| m0 ms IH]; intros i Hi Htag Hfirst; [done |].
  simpl. destruct i as [| i].
  - injection Hi as ->. by rewrite (proj2 (String.eqb_eq _ _) Htag).
  - rewrite (proj2 (String.eqb_neq _ _) (Hfirst 0%nat m0 ltac:(lia) eq_refl)).
    apply (IH i); [done | done |].
    intros j m' Hj Hm'. apply (Hfirst (S j)); [lia | done].
Qed.

Lemma FindMaterial_loop_none (ms : list OBJECT_MATERIAL) (t : string)
    (material : OBJECT_MATERIAL) :
  (forall m, m ∈ ms -> material_tag m <> t) ->
  FindMaterial_loop ms t material = (false, material).
Proof.
  induction ms as [| m0 ms IH]; intros Hmiss; [done |].
  simpl. rewrite (proj2 (String.eqb_neq _ _) (Hmiss m0 ltac:(left))).
  apply IH. intros m Hm. apply Hmiss. by right.
Qed.

(** X4.  [FindMaterial] copies the three value fields of the first material
    that carries the tag and leaves the caller's tag field alone. *)
Theorem FindMaterial_first_match (t : string) (material : OBJECT_MATERIAL)
    (w : World) (i : nat) (m : OBJECT_MATERIAL) :
  m_objectMaterials (this w) !! i = Some m ->
  material_tag m = t ->
  (forall j m', (j < i)%nat ->
     m_objectMaterials (this w) !! j = Some m' -> material_tag m' <> t) ->
  FindMaterial t material w =
  (true,
   {| diffuseColor := diffuseColor m;
      specularColor := specularColor m;
      shininess := shininess m;
      material_tag := material_tag material |}).
Proof.
  intros Hi Htag Hfirst. unfold FindMaterial.
  rewrite bool_decide_eq_false_2.
  - by rewrite (FindMaterial_loop_first _ t material i m Hi Htag Hfirst).
  - apply lookup_lt_Some in Hi. lia.
Qed.

(** X5.  When no defined material carries the tag, [FindMaterial] hands the
    caller's material back untouched, and its result only says whether any
    material is defined at all. *)
Theorem FindMaterial_no_match (t : string) (material : OBJECT_MATERIAL)
    (w : World) :
  (forall m, m ∈ m_objectMaterials (this w) -> material_tag m <> t) ->
  FindMaterial t material w =
  (bool_decide (m_objectMaterials (this w) <> []), material).
Proof.
  intros Hmiss. unfold FindMaterial.
  rewrite (FindMaterial_loop_none _ t material Hmiss).
  destruct (m_objectMaterials (this w)) as [| m0 ms]; [done |].
  rewrite bool_decide_eq_false_2 by (simpl; lia).
  by rewrite bool_decide_eq_true_2.
Qed.

(** X6.  With a shader manager, [SetShaderMaterial] uploads the colours and
    the shininess of the first material that carries the tag and writes no
    other uniform. *)
Theorem SetShaderMaterial_uploads_first_match
    (uninitialised : OBJECT_MATERIAL) (t : string) (w : World)
    (u : gmap string uniform) (i : nat) (m : OBJECT_MATERIAL) :
  m_pShaderManager (this w) = Some u ->
  m_objectMaterials (this w) !! i = Some m ->
  material_tag m = t ->
  (forall j m', (j < i)%nat ->
     m_objectMaterials (this w) !! j = Some m' -> material_tag m' <> t) ->
  SetShaderMaterial uninitialised t w =
  Ok (with_uniforms
        (<["material.shininess" := FloatValue (shininess m)]>
           (<["material.specularColor" := Vec3Value (specularColor m)]>
              (<["material.diffuseColor" := Vec3Value (diffuseColor m)]> u))) w).
Proof.
  intros Hu Hi Htag Hfirst. unfold SetShaderMaterial.
  rewrite bool_decide_eq_true_2 by (apply lookup_lt_Some in Hi; lia).
  unfold FindMaterial.
  rewrite bool_decide_eq_false_2 by (apply lookup_lt_Some in Hi; lia).
  rewrite (FindMaterial_loop_first _ t uninitialised i m Hi Htag Hfirst).
  by rewrite (setValue_with_manager _ _ _ _ Hu).
Qed.

(** X7.  With a shader manager and at least one material defined, a tag that
    no material carries makes [SetShaderMaterial] upload the fields of its
    own uninitialised local. *)
Theorem SetShaderMaterial_uploads_uninitialised
    (uninitialised : OBJECT_MATERIAL) (t : string) (w : World)
    (u : gmap string uniform) :
  m_pShaderManager (this w) = Some u ->
  m_objectMaterials (this w) <> [] ->
  (forall m, m ∈ m_objectMaterials (this w) -> material_tag m <> t) ->
  SetShaderMaterial uninitialised t w =
  Ok (with_uniforms
        (<["material.shininess" := FloatValue (shininess uninitialised)]>
           (<["material.specularColor" := Vec3Value (specularColor uninitialised)]>
              (<["material.diffuseColor" := Vec3Value (diffuseColor uninitialised)]>
                 u))) w).
Proof.
  intros Hu Hne Hmiss. unfold SetShaderMaterial.
  rewrite bool_decide_eq_true_2
    by (destruct (m_objectMaterials (this w)); [done | simpl; lia]).
  unfold FindMaterial.
  rewrite bool_decide_eq_false_2
    by (destruct (m_objectMaterials (this w)); [done | simpl; lia]).
  rewrite (FindMaterial_loop_none _ t uninitialised Hmiss).
  by rewrite (setValue_with_manager _ _ _ _ Hu).
Qed.

(** *** Texture units and samplers *)

Lemma FindTextureSlot_loop_ext (t : string) (s s' : SceneManager) (n : nat) (k : Z) :
  m_textureIDs s = m_textureIDs s' ->
  FindTextureSlot_loop n k t s = FindTextureSlot_loop n k t s'.
Proof.
  intros Ha. revert k. induction n as [| n IH]; intros k; [done |].
  simpl. rewrite Ha. destruct (texture_at _ k) as [e | |]; simpl; [| done | done].
  destruct (tag_is t e); [done | apply IH].
Qed.

Lemma FindTextureSlot_same_table (t : string) (w w' : World) :
  m_textureIDs (this w') = m_textureIDs (this w) ->
  m_loadedTextures (this w') = m_loadedTextures (this w) ->
  FindTextureSlot t w' = FindTextureSlot t w.
Proof.
  intros Ha Hn. unfold FindTextureSlot. rewrite Hn.
  by apply FindTextureSlot_loop_ext.
Qed.

Lemma SetShaderTexture_with_manager (t : string) (w : World)
    (u : gmap string uniform) (z : Z) :
  m_pShaderManager (this w) = Some u ->
  FindTextureSlot t w = Ok z ->
  SetShaderTexture t w =
  Ok (with_uniforms
        (<["objectTexture" := Sampler2DValue z]>
           (<["bUseTexture" := IntValue 1]> u)) w).
Proof.
  intros Hu Hz. unfold SetShaderTexture. rewrite Hu.
  rewrite (setValue_with_manager _ _ _ _ Hu). simpl.
  rewrite (FindTextureSlot_same_table t w (with_uniforms _ w) eq_refl eq_refl), Hz.
  reflexivity.
Qed.

Lemma BindGLTextures_loop_active (n k : nat) (w w' : World) :
  BindGLTextures_loop n (Z.of_nat k) w = Ok w' ->
  gl_active_unit (gl w') =
  match n with O => gl_active_unit (gl w) | S _ => Z.of_nat (k + n) - 1 end.
Proof.
  revert k w. induction n as [| n IH]; intros k w; simpl.
  - by intros [= <-].
  - destruct (texture_at _ _) as [e | |]; simpl; [| done | done].
    replace (Z.of_nat k + 1) with (Z.of_nat (S k)) by lia.
    intros Hrun. rewrite (IH _ _ Hrun). destruct n; simpl; lia.
Qed.

(** X8.  Once [BindGLTextures] has run, the sampler index that
    [SetShaderTexture] uploads for a registered tag names the texture unit
    on which that tag's handle is bound. *)
Theorem sampler_names_bound_unit (t : string) (w : World)
    (u : gmap string uniform) (z : Z) :
  in_extent w ->
  m_pShaderManager (this w) = Some u ->
  FindTextureSlot t w = Ok z ->
  0 <= z ->
  exists w1 w2 e,
    BindGLTextures w = Ok w1
    /\ SetShaderTexture t w1 = Ok w2
    /\ m_textureIDs (this w) !! Z.to_nat z = Some e
    /\ tag e = t
    /\ uniforms w2 !! "bUseTexture" = Some (IntValue 1)
    /\ uniforms w2 !! "objectTexture" = Some (Sampler2DValue z)
    /\ gl_bound_2D (gl w2) !! z = Some (ID e).
Proof.
  intros Hext Hu Hz Hpos.
  destruct (BindGLTextures_loop_units _ 0 w Hext)
    as (w1 & Hbind & Hthis & _ & Hin & _).
  rewrite (FindTextureSlot_find t w Hext) in Hz. unfold first_match in Hz.
  destruct (list_find _ (registered w)) as [[i e] |] eqn:Hfind;
    simpl in Hz; injection Hz as <-; [| lia].
  assert (FindTextureSlot t w1 = Ok (Z.of_nat i)) as Hz1.
  { rewrite (FindTextureSlot_same_table t w w1) by (by rewrite Hthis).
    rewrite (FindTextureSlot_find t w Hext). unfold first_match.
    by rewrite Hfind. }
  apply list_find_Some in Hfind as (Hi & Htag & _).
  apply lookup_take_Some in Hi as [Hi Hlt].
  exists w1. eexists. exists e.
  split; [exact Hbind |].
  split.
  { apply SetShaderTexture_with_manager; [by rewrite Hthis | exact Hz1]. }
  rewrite Nat2Z.id. split; [done |]. split; [done |].
  unfold uniforms. simpl.
  split; [by rewrite lookup_insert_ne, lookup_insert_eq |].
  split; [by rewrite lookup_insert_eq |].
  apply (Hin i e); [lia | done].
Qed.

(** X9.  A registration made after [BindGLTextures] takes the last bound
    unit's texture away: [CreateGLTexture] binds on whatever unit is active,
    which [BindGLTextures] left at the last slot, and ends by binding 0
    there. *)
Theorem CreateGLTexture_after_bind_unbinds_last_unit
    (filename t : string) (w : World) :
  accepted filename = true ->
  0 < m_loadedTextures (this w) ->
  (Z.to_nat (m_loadedTextures (this w)) < length (m_textureIDs (this w)))%nat ->
  exists w1 w2 e,
    BindGLTextures w = Ok w1
    /\ m_textureIDs (this w) !! Z.to_nat (m_loadedTextures (this w) - 1) = Some e
    /\ gl_bound_2D (gl w1) !! (m_loadedTextures (this w) - 1) = Some (ID e)
    /\ CreateGLTexture filename t w1 = Ok (true, w2)
    /\ gl_bound_2D (gl w2) !! (m_loadedTextures (this w) - 1) = Some 0.
Proof.
  intros Hacc Hpos Hroom. unfold BindGLTextures.
  remember (Z.to_nat (m_loadedTextures (this w))) as n eqn:Hn.
  destruct (BindGLTextures_loop_units n 0 w ltac:(lia))
    as (w1 & Hbind & Hthis & _ & Hin & _).
  pose proof (BindGLTextures_loop_active n 0 w w1 Hbind) as Hactive.
  destruct n as [| n']; [lia |].
  destruct (lookup_lt_is_Some_2 (m_textureIDs (this w)) n' ltac:(lia)) as [e He].
  replace (m_loadedTextures (this w) - 1) with (Z.of_nat n') by lia.
  destruct (CreateGLTexture_accepted filename t w1 Hacc)
    as (g' & Hrun & _ & _ & Hbound).
  { rewrite Hthis. lia. }
  { rewrite Hthis. lia. }
  exists w1. eexists. exists e.
  split; [exact Hbind |]. rewrite Nat2Z.id. split; [exact He |].
  split; [apply (Hin n' e); [lia | done] |].
  split; [exact Hrun |].
  simpl. rewrite Hbound, Hactive.
  replace (Z.of_nat (0 + S n') - 1) with (Z.of_nat n') by lia.
  by rewrite lookup_insert_eq.
Qed.

(** X10.  The two ways [CreateGLTexture] returns [false].  A file that does
    not decode leaves everything as it was.  A file that decodes with an
    unsupported channel count returns after [glGenTextures], [glBindTexture]
    and the four [glTexParameteri] calls: the new texture name stays
    allocated and stays bound on the active unit. *)
Theorem CreateGLTexture_rejection_paths (filename t : string) (w : World) :
  match stbi_load filename with
  | None => CreateGLTexture filename t w = Ok (false, w)
  | Some image =>
      colorChannels image = 3 \/ colorChannels image = 4 \/
      exists w',
        CreateGLTexture filename t w = Ok (false, w')
        /\ this w' = this w
        /\ gl_next_texture (gl w') = gl_next_texture (gl w) + 1
        /\ gl_active_unit (gl w') = gl_active_unit (gl w)
        /\ gl_bound_2D (gl w') !! gl_active_unit (gl w)
           = Some (gl_next_texture (gl w))
        /\ gl_calls (gl w') =
           gl_calls (gl w) ++
           [glGenTextures (gl_next_texture (gl w));
            glBindTexture (gl_next_texture (gl w));
            glTexParameteri "GL_TEXTURE_WRAP_S" "GL_REPEAT";
            glTexParameteri "GL_TEXTURE_WRAP_T" "GL_REPEAT";
            glTexParameteri "GL_TEXTURE_MIN_FILTER" "GL_LINEAR";
            glTexParameteri "GL_TEXTURE_MAG_FILTER" "GL_LINEAR"]
  end.
Proof.
  unfold CreateGLTexture.
  destruct (stbi_load filename) as [image |]; [| done].
  destruct (Z.eqb_spec (colorChannels image) 3) as [H3 | H3]; [by left |].
  destruct (Z.eqb_spec (colorChannels image) 4) as [H4 | H4]; [by right; left |].
  right. right. simpl.
  eexists. split; [reflexivity |]. simpl.
  rewrite lookup_insert_eq, <- !app_assoc. done.
Qed.

(** X11.  Colour and texture share the "bUseTexture" flag, and the later call
    wins: colour after texture leaves the flag at 0 with the sampler still
    in the store, texture after colour leaves it at 1 with the colour still
    in the store. *)
Theorem color_and_texture_last_write_wins
    (t : string) (r g b a : float) (w : World)
    (u : gmap string uniform) (z : Z) :
  m_pShaderManager (this w) = Some u ->
  FindTextureSlot t w = Ok z ->
  (exists w',
     (w1 ← SetShaderTexture t w; SetShaderColor r g b a w1) = Ok w'
     /\ uniforms w' !! "bUseTexture" = Some (IntValue 0)
     /\ uniforms w' !! "objectColor" = Some (Vec4Value (r, g, b, a))
     /\ uniforms w' !! "objectTexture" = Some (Sampler2DValue z))
  /\ (exists w',
     (w1 ← SetShaderColor r g b a w; SetShaderTexture t w1) = Ok w'
     /\ uniforms w' !! "bUseTexture" = Some (IntValue 1)
     /\ uniforms w' !! "objectColor" = Some (Vec4Value (r, g, b, a))
     /\ uniforms w' !! "objectTexture" = Some (Sampler2DValue z)).
Proof.
  intros Hu Hz. split.
  - rewrite (SetShaderTexture_with_manager t w u z Hu Hz). simpl.
    eexists. split; [reflexivity |]. by store_lookup.
  - unfold SetShaderColor. rewrite Hu, (setValue_with_manager _ _ _ _ Hu). simpl.
    match goal with
    | |- context [SetShaderTexture t ?w1] =>
        rewrite (SetShaderTexture_with_manager t w1 _ z eq_refl)
          by (by rewrite (FindTextureSlot_same_table t w w1))
    end.
    eexists. split; [reflexivity |]. by store_lookup.
Qed.

(** *** Teardown in general *)

Lemma DestroyGLTextures_loop_state (n k : nat) (w : World) :
  (k + n <= length (m_textureIDs (this w)))%nat ->
  exists w',
    DestroyGLTextures_loop n (Z.of_nat k) w = Ok w'
    /\ gl_calls (gl w') =
       gl_calls (gl w) ++
       (glGenTextures <$> seqZ (gl_next_texture (gl w)) (Z.of_nat n))
    /\ gl_bound_2D (gl w') = gl_bound_2D (gl w)
    /\ m_pShaderManager (this w') = m_pShaderManager (this w)
    /\ m_basicMeshes (this w') = m_basicMeshes (this w)
    /\ m_objectMaterials (this w') = m_objectMaterials (this w)
    /\ m_loadedTextures (this w') = m_loadedTextures (this w)
    /\ length (m_textureIDs (this w')) = length (m_textureIDs (this w))
    /\ (forall j e, (k <= j < k + n)%nat ->
          m_textureIDs (this w) !! j = Some e ->
          m_textureIDs (this w') !! j =
          Some {| tag := tag e;
                  ID := gl_next_texture (gl w) + Z.of_nat (j - k) |})
    /\ (forall j, ~ (k <= j < k + n)%nat ->
          m_textureIDs (this w') !! j = m_textureIDs (this w) !! j).
Proof.
  revert k w. induction n as [| n IH]; intros k w Hlen.
  - exists w. rewrite app_nil_r. do 8 (split; [done |]).
    split; [intros; lia | done].
  - simpl DestroyGLTextures_loop. unfold texture_store.
    destruct (texture_at_inside (m_textureIDs (this w)) k ltac:(lia))
      as (e & He & Hat).
    rewrite Hat. simpl.
    replace (Z.of_nat k + 1) with (Z.of_nat (S k)) by lia.
    set (w1 := {| this := _; gl := _ |}).
    destruct (IH (S k) w1) as (w' & -> & Hcalls & Hbound & Hsm & Hmesh & Hmat
                                 & Hcount & Hlength & Hin & Hout).
    { subst w1. simpl. rewrite length_insert. lia. }
    exists w'. split; [done |].
    subst w1. simpl in *. rewrite Nat2Z.id in *.
    split.
    { rewrite Hcalls, <- app_assoc. f_equal.
      rewrite (seqZ_cons _ (Z.of_nat (S n))) by lia. simpl.
      do 3 f_equal; lia. }
    do 5 (split; [done |]).
    split; [by rewrite Hlength, length_insert |].
    split.
    + intros j e' Hj He'.
      destruct (decide (j = k)) as [-> | Hne].
      * rewrite Hout by lia.
        rewrite list_lookup_insert_eq by lia.
        rewrite He in He'. injection He' as <-.
        do 2 f_equal. lia.
      * rewrite (Hin j e') by
          (lia || by rewrite list_lookup_insert_ne).
        do 2 f_equal. lia.
    + intros j Hj. rewrite Hout by lia.
      apply list_lookup_insert_ne. lia.
Qed.

(** X12.  The destructor, within the table's extent.  It returns with both
    pointers null.  The only OpenGL calls it makes are one [glGenTextures]
    per registered slot, never a [glDeleteTextures]; every unit keeps its
    binding; and each registered slot keeps its tag while its handle is
    replaced by the new name. *)
Theorem SceneManager_delete_overwrites_handles (w : World) :
  in_extent w ->
  exists w',
    SceneManager_delete w = Ok w'
    /\ m_pShaderManager (this w') = None
    /\ m_basicMeshes (this w') = None
    /\ m_loadedTextures (this w') = m_loadedTextures (this w)
    /\ gl_calls (gl w') =
       gl_calls (gl w) ++
       (glGenTextures <$>
          seqZ (gl_next_texture (gl w))
               (Z.of_nat (Z.to_nat (m_loadedTextures (this w)))))
    /\ gl_bound_2D (gl w') = gl_bound_2D (gl w)
    /\ (forall i e, registered w !! i = Some e ->
          registered w' !! i =
          Some {| tag := tag e; ID := gl_next_texture (gl w) + Z.of_nat i |}).
Proof.
  intros Hext. unfold SceneManager_delete, DestroyGLTextures.
  set (w0 := {| this := _; gl := gl w |}).
  assert (m_textureIDs (this w0) = m_textureIDs (this w)
          /\ m_loadedTextures (this w0) = m_loadedTextures (this w)
          /\ m_pShaderManager (this w0) = None
          /\ m_basicMeshes (this w0) = None) as (Ha0 & Hn0 & Hsm0 & Hmesh0).
  { subst w0. simpl.
    destruct (m_basicMeshes (this w)) eqn:Hm; simpl; by rewrite ?Hm. }
  rewrite Hn0.
  destruct (DestroyGLTextures_loop_state
              (Z.to_nat (m_loadedTextures (this w))) 0 w0)
    as (w' & Hrun & Hcalls & Hbound & Hsm & Hmesh & _ & Hcount & _ & Hin & _).
  { rewrite Ha0. exact Hext. }
  exists w'. split; [exact Hrun |].
  split; [by rewrite Hsm |]. split; [by rewrite Hmesh |].
  split; [by rewrite Hcount |].
  split; [exact Hcalls |]. split; [exact Hbound |].
  intros i e Hi. unfold registered in *. rewrite Hcount, Hn0.
  apply lookup_take_Some in Hi as [Hi Hlt].
  rewrite lookup_take_lt by done.
  rewrite (Hin i e) by (lia || by rewrite Ha0).
  do 3 f_equal. lia.
Qed.

(** *** Lights *)

Lemma setValue_staged (name : string) (v : uniform) (u : gmap string uniform)
    (w : World) :
  setValue name v (with_uniforms u w) = Ok (with_uniforms (<[name := v]> u) w).
Proof. reflexivity. Qed.

Lemma outcome_bind_Ok {A B : Type} (a : A) (f : A -> outcome B) :
  (Ok a ≫= f) = f a.
Proof. reflexivity. Qed.

Lemma SetupSceneLights_with_manager (w : World) (u : gmap string uniform) :
  m_pShaderManager (this w) = Some u ->
  exists u',
    SetupSceneLights w = Ok (with_uniforms u' w)
    /\ u' !! "bUseLighting" = Some (BoolValue true)
    /\ u' !! "directionalLight.bActive" = Some (BoolValue true)
    /\ u' !! "pointLights[0].bActive" = Some (BoolValue true)
    /\ u' !! "pointLights[1].bActive" = Some (BoolValue true)
    /\ u' !! "pointLights[2].bActive" = Some (BoolValue true)
    /\ (forall name, name ∈ light_names -> is_Some (u' !! name))
    /\ (forall name, name ∉ light_names -> u' !! name = u !! name).
Proof.
  intros Hu. unfold SetupSceneLights, setVec3.
  rewrite (setValue_with_manager _ _ _ _ Hu).
  do 23 (rewrite outcome_bind_Ok; rewrite setValue_staged).
  eexists. split; [reflexivity |].
  do 5 (split; [by store_lookup |]).
  split.
  - intros name Hname. unfold light_names in Hname.
    rewrite !elem_of_cons, elem_of_nil in Hname.
    repeat (destruct Hname as [-> | Hname]; [by store_lookup |]).
    done.
  - intros name Hname. unfold light_names in Hname.
    rewrite !not_elem_of_cons in Hname. destruct_and!.
    unfold g_UseLightingName. by rewrite !lookup_insert_ne.
Qed.

Lemma SetupSceneLights_null (w : World) :
  m_pShaderManager (this w) = None -> SetupSceneLights w = NullDereference.
Proof.
  intros Hu. unfold SetupSceneLights, setVec3, setValue. by rewrite Hu.
Qed.

(** X13.  [SetupSceneLights] has no null test: without a shader manager it
    calls through the null pointer.  With one it returns, switches lighting
    and all four lights on, writes under the 24 light names only, and
    leaves the scene manager's other members and every other uniform as
    they were. *)
Theorem SetupSceneLights_effect (w : World) :
  match m_pShaderManager (this w) with
  | None => SetupSceneLights w = NullDereference
  | Some u =>
      exists u',
        SetupSceneLights w = Ok (with_uniforms u' w)
        /\ u' !! "bUseLighting" = Some (BoolValue true)
        /\ u' !! "directionalLight.bActive" = Some (BoolValue true)
        /\ u' !! "pointLights[0].bActive" = Some (BoolValue true)
        /\ u' !! "pointLights[1].bActive" = Some (BoolValue true)
        /\ u' !! "pointLights[2].bActive" = Some (BoolValue true)
        /\ (forall name, name ∈ light_names -> is_Some (u' !! name))
        /\ (forall name, name ∉ light_names -> u' !! name = u !! name)
  end.
Proof.
  destruct (m_pShaderManager (this w)) as [u |] eqn:Hu.
  - by apply SetupSceneLights_with_manager.
  - by apply SetupSceneLights_null.
Qed.

(** *** Loading the scene's textures *)

Lemma CreateGLTexture_members (filename t : string) (w w' : World) (b : bool) :
  CreateGLTexture filename t w = Ok (b, w') ->
  m_pShaderManager (this w') = m_pShaderManager (this w)
  /\ m_basicMeshes (this w') = m_basicMeshes (this w)
  /\ m_objectMaterials (this w') = m_objectMaterials (this w)
  /\ gl_next_texture (gl w) <= gl_next_texture (gl w').
Proof.
  unfold CreateGLTexture.
  destruct (stbi_load filename) as [image |];
    [| intros [= <- <-]; repeat split; lia].
  simpl.
  destruct (colorChannels image =? 3); [| destruct (colorChannels image =? 4)].
  3: intros [= <- <-]; simpl; repeat split; lia.
  all: destruct (texture_store _ _ _); simpl; [| done | done].
  all: intros [= <- <-]; simpl; repeat split; lia.
Qed.

Lemma register_all_members (calls : list (string * string)) (w w' : World) :
  register_all calls w = Ok w' ->
  m_pShaderManager (this w') = m_pShaderManager (this w)
  /\ m_basicMeshes (this w') = m_basicMeshes (this w)
  /\ m_objectMaterials (this w') = m_objectMaterials (this w)
  /\ gl_next_texture (gl w) <= gl_next_texture (gl w').
Proof.
  revert w. induction calls as [| [filename t] calls IH]; intros w; simpl.
  - intros [= <-]. repeat split; lia.
  - destruct (CreateGLTexture filename t w) as [[b w1] | |] eqn:Hrun;
      simpl; [| done | done].
    intros Hrest.
    destruct (CreateGLTexture_members _ _ _ _ _ Hrun) as (Hs1 & Hm1 & Hmat1 & Hle).
    destruct (IH _ Hrest) as (Hs2 & Hm2 & Hmat2 & Hle').
    split; [congruence |]. split; [congruence |]. split; [congruence | lia].
Qed.

Lemma LoadSceneTextures_as_run (w : World) :
  LoadSceneTextures w = register_all scene_textures w ≫= BindGLTextures.
Proof.
  unfold LoadSceneTextures, scene_textures. simpl.
  do 4 (destruct (CreateGLTexture _ _ _) as [[? ?] | |]; simpl; [| done | done]).
  done.
Qed.

Lemma scene_textures_fit : (length (accepted_tags scene_textures) <= 4)%nat.
Proof.
  unfold scene_textures. rewrite !accepted_tags_cons.
  repeat destruct (accepted _); simpl; lia.
Qed.

Lemma LoadSceneTextures_new (sm : option (gmap string uniform)) (g : GLContext) :
  exists w regs,
    LoadSceneTextures {| this := SceneManager_new sm; gl := g |} = Ok w
    /\ filled regs w
    /\ tag <$> regs = accepted_tags scene_textures
    /\ m_pShaderManager (this w) = sm
    /\ m_basicMeshes (this w) = Some []
    /\ m_objectMaterials (this w) = []
    /\ (forall i e, regs !! i = Some e ->
          gl_bound_2D (gl w) !! Z.of_nat i = Some (ID e)).
Proof.
  pose proof scene_textures_fit as Hfit.
  destruct (register_all_fills scene_textures [] _ (filled_new sm g)
              ltac:(simpl; lia)) as (w1 & regs & Hrun & Hfilled & Htags).
  simpl in Hfilled.
  destruct (register_all_members _ _ _ Hrun) as (Hsm & Hmesh & Hmat & _).
  pose proof (filled_in_extent _ _ Hfilled) as Hext.
  destruct (BindGLTextures_loop_units _ 0 w1 Hext)
    as (w & Hbind & Hthis & _ & Hin & _).
  exists w, regs. rewrite LoadSceneTextures_as_run, Hrun. simpl.
  split; [exact Hbind |].
  destruct Hfilled as (Hn & Ha & Hle).
  split; [unfold filled; by rewrite Hthis |].
  split; [done |]. rewrite Hthis.
  do 3 (split; [done |]).
  intros i e Hi. apply (Hin i e).
  - rewrite Hn, Nat2Z.id. apply lookup_lt_Some in Hi. lia.
  - rewrite Ha. by apply lookup_app_l_Some.
Qed.

(** X14.  From the constructor's state [LoadSceneTextures] always returns,
    whatever the four files hold.  The registered slots carry the tags of
    the files that were accepted, in source order, and each of them is bound
    on the texture unit of its slot index. *)
Theorem LoadSceneTextures_from_constructor
    (sm : option (gmap string uniform)) (g : GLContext) :
  exists w,
    LoadSceneTextures {| this := SceneManager_new sm; gl := g |} = Ok w
    /\ tag <$> registered w = accepted_tags scene_textures
    /\ (m_loadedTextures (this w) <= 4)
    /\ m_pShaderManager (this w) = sm
    /\ (forall i e, registered w !! i = Some e ->
          gl_bound_2D (gl w) !! Z.of_nat i = Some (ID e)).
Proof.
  destruct (LoadSceneTextures_new sm g)
    as (w & regs & Hrun & (Hn & Ha & Hle) & Htags & Hsm & _ & _ & Hbound).
  assert (registered w = regs) as Hreg.
  { unfold registered. by rewrite Hn, Ha, Nat2Z.id, take_app_length. }
  exists w. rewrite Hreg. split; [done |]. split; [done |].
  split.
  { rewrite Hn. pose proof scene_textures_fit as Hfit.
    rewrite <- Htags, length_fmap in Hfit. lia. }
  done.
Qed.

(** *** PrepareScene *)

Lemma PrepareScene_new_with_manager (u : gmap string uniform) (g : GLContext) :
  exists w regs u',
    PrepareScene {| this := SceneManager_new (Some u); gl := g |} = Ok w
    /\ filled regs w
    /\ tag <$> regs = accepted_tags scene_textures
    /\ m_pShaderManager (this w) = Some u'
    /\ u' !! "bUseLighting" = Some (BoolValue true)
    /\ m_basicMeshes (this w) = Some []
    /\ material_tag <$> m_objectMaterials (this w) = ["metal"; "wood"; "glass"]
    /\ (forall i e, regs !! i = Some e ->
          gl_bound_2D (gl w) !! Z.of_nat i = Some (ID e)).
Proof.
  destruct (LoadSceneTextures_new (Some u) g)
    as (w1 & regs & Hload & Hfilled & Htags & Hsm & Hmesh & Hmat & Hbound).
  destruct (SetupSceneLights_with_manager w1 u Hsm)
    as (u' & Hlights & Hon & _).
  unfold PrepareScene. rewrite Hload. simpl. rewrite Hlights. simpl.
  unfold Load. simpl. repeat (rewrite Hmesh; simpl).
  eexists. exists regs, u'. split; [reflexivity |]. simpl.
  split; [exact Hfilled |]. split; [exact Htags |].
  split; [done |]. split; [exact Hon |]. split; [exact Hmesh |].
  split; [by rewrite Hmat | exact Hbound].
Qed.

(** X15.  [PrepareScene] on a freshly constructed scene manager.  Without a
    shader manager, [LoadSceneTextures] returns (the shader manager still
    null, no material defined yet), [SetupSceneLights] on the state it
    returns calls through the null pointer, and [PrepareScene] as a whole
    ends that way.  With one it returns, whatever the texture files hold:
    lighting is on, the materials "metal", "wood" and "glass" are defined in
    that order, the accepted textures are registered in source order, and
    each is bound on the unit of its slot. *)
Theorem PrepareScene_from_constructor
    (sm : option (gmap string uniform)) (g : GLContext) :
  match sm with
  | None =>
      exists w1,
        LoadSceneTextures {| this := SceneManager_new None; gl := g |} = Ok w1
        /\ m_pShaderManager (this w1) = None
        /\ m_objectMaterials (this w1) = []
        /\ SetupSceneLights w1 = NullDereference
        /\ PrepareScene {| this := SceneManager_new None; gl := g |}
           = NullDereference
  | Some u =>
      exists w,
        PrepareScene {| this := SceneManager_new (Some u); gl := g |} = Ok w
        /\ uniforms w !! "bUseLighting" = Some (BoolValue true)
        /\ material_tag <$> m_objectMaterials (this w) = ["metal"; "wood"; "glass"]
        /\ tag <$> registered w = accepted_tags scene_textures
        /\ in_extent w
        /\ (forall i e, registered w !! i = Some e ->
              gl_bound_2D (gl w) !! Z.of_nat i = Some (ID e))
  end.
Proof.
  destruct sm as [u |].
  - destruct (PrepareScene_new_with_manager u g)
      as (w & regs & u' & Hrun & Hfilled & Htags & Hsm & Hon & _ & Hmat & Hbound).
    assert (registered w = regs) as Hreg.
    { destruct Hfilled as (Hn & Ha & _). unfold registered.
      by rewrite Hn, Ha, Nat2Z.id, take_app_length. }
    exists w. rewrite Hreg. split; [done |].
    split; [unfold uniforms; by rewrite Hsm |].
    split; [done |]. split; [done |].
    split; [by apply (filled_in_extent regs) | done].
  - destruct (LoadSceneTextures_new None g)
      as (w1 & regs & Hload & _ & _ & Hsm & _ & Hmat & _).
    pose proof (SetupSceneLights_null w1 Hsm) as Hlights.
    exists w1. do 4 (split; [done |]).
    unfold PrepareScene. rewrite Hload. simpl. by rewrite Hlights.
Qed.

(** *** RenderScene *)

Lemma stage_id (w : World) (drawn : list mesh) :
  m_basicMeshes (this w) = Some drawn ->
  stage (m_pShaderManager (this w)) drawn w = w.
Proof. destruct w as [[] ?]. simpl. by intros ->. Qed.

Lemma runs_eq (f : World -> outcome World) (ms ms' : list mesh) :
  runs f ms -> ms = ms' -> runs f ms'.
Proof. by intros ? <-. Qed.

Lemma runs_bind (f g : World -> outcome World) (a b : list mesh) :
  runs f a -> runs g b -> runs (fun w => f w ≫= g) (a ++ b).
Proof.
  intros Hf Hg sm drawn w Hext Hmat.
  destruct (Hf sm drawn w Hext Hmat) as (sm1 & -> & Hsm1). simpl.
  destruct (Hg sm1 (drawn ++ a) w Hext) as (sm2 & -> & Hsm2).
  { intros Hnone. apply Hmat. by apply Hsm1. }
  exists sm2. rewrite app_assoc. split; [done |].
  by rewrite Hsm2.
Qed.

Lemma runs_Ok : runs Ok [].
Proof.
  intros sm drawn w _ _. exists sm. by rewrite app_nil_r.
Qed.

Lemma runs_SetTransformations (s : vec3) (rx ry rz : float) (t : vec3) :
  runs (SetTransformations s rx ry rz t) [].
Proof.
  intros sm drawn w _ _. rewrite app_nil_r.
  destruct sm; eexists; (split; [reflexivity | done]).
Qed.

Lemma runs_SetShaderColor (r g b a : float) : runs (SetShaderColor r g b a) [].
Proof.
  intros sm drawn w _ _. rewrite app_nil_r.
  destruct sm; eexists; (split; [reflexivity | done]).
Qed.

Lemma runs_SetTextureUVScale (u v : float) : runs (SetTextureUVScale u v) [].
Proof.
  intros sm drawn w _ _. rewrite app_nil_r.
  destruct sm; eexists; (split; [reflexivity | done]).
Qed.

Lemma runs_SetShaderTexture (t : string) : runs (SetShaderTexture t) [].
Proof.
  intros sm drawn w Hext _. rewrite app_nil_r.
  destruct sm as [u |]; [| by exists None].
  eexists (Some _). split; [| split; intros [=]].
  rewrite (SetShaderTexture_with_manager t (stage (Some u) drawn w) u _ eq_refl
             (FindTextureSlot_find t (stage (Some u) drawn w) Hext)).
  reflexivity.
Qed.

Lemma runs_SetShaderMaterial (uninitialised : OBJECT_MATERIAL) (t : string) :
  runs (SetShaderMaterial uninitialised t) [].
Proof.
  intros sm drawn w _ Hmat. rewrite app_nil_r.
  destruct sm as [u |].
  - destruct (SetShaderMaterial_with_manager uninitialised t
                (stage (Some u) drawn w) u eq_refl) as (u' & -> & _).
    by exists (Some u').
  - exists None. split; [| done].
    unfold SetShaderMaterial. simpl. by rewrite (Hmat eq_refl).
Qed.

Lemma runs_Draw (m : mesh) : runs (Draw m) [m].
Proof.
  intros sm drawn w _ _. exists sm. done.
Qed.

Ltac runs_steps :=
  repeat first
    [ apply runs_SetTransformations
    | apply runs_SetShaderColor
    | apply runs_SetTextureUVScale
    | apply runs_SetShaderTexture
    | apply runs_SetShaderMaterial
    | apply runs_Draw
    | apply runs_Ok
    | eapply runs_bind ].

Lemma runs_RenderScene_desk (uninitialised : OBJECT_MATERIAL) :
  runs (RenderScene_desk uninitialised) [PlaneMesh].
Proof.
  unfold RenderScene_desk. cbv zeta.
  eapply runs_eq; [runs_steps | reflexivity].
Qed.

Lemma runs_RenderScene (uninitialised : OBJECT_MATERIAL) :
  runs (RenderScene uninitialised) scene_meshes.
Proof.
  unfold RenderScene. cbv zeta.
  eapply runs_eq;
    [eapply runs_bind; [apply runs_RenderScene_desk | runs_steps] | reflexivity].
Qed.

(** X16.  One pass of [RenderScene].  With the table within its extent, a
    mesh object present, and either a shader manager or no material defined,
    the pass returns and draws the nineteen meshes of the scene in source
    order, whether or not any texture or material it names exists.  It
    writes nothing but uniforms: the texture table, the count, the materials
    and the OpenGL context are as before. *)
Theorem RenderScene_draws_the_scene
    (uninitialised : OBJECT_MATERIAL) (w : World) (drawn : list mesh) :
  in_extent w ->
  m_basicMeshes (this w) = Some drawn ->
  (m_pShaderManager (this w) = None -> m_objectMaterials (this w) = []) ->
  exists w',
    RenderScene uninitialised w = Ok w'
    /\ m_basicMeshes (this w') = Some (drawn ++ scene_meshes)
    /\ m_textureIDs (this w') = m_textureIDs (this w)
    /\ m_loadedTextures (this w') = m_loadedTextures (this w)
    /\ m_objectMaterials (this w') = m_objectMaterials (this w)
    /\ gl w' = gl w
    /\ (m_pShaderManager (this w') = None <-> m_pShaderManager (this w) = None).
Proof.
  intros Hext Hdrawn Hmat.
  destruct (runs_RenderScene uninitialised (m_pShaderManager (this w)) drawn w
              Hext Hmat) as (sm' & Hrun & Hsm).
  rewrite (stage_id w drawn Hdrawn) in Hrun.
  eexists. split; [exact Hrun |]. simpl. done.
Qed.

Lemma SetTransformations_null (s : vec3) (rx ry rz : float) (t : vec3) (w : World) :
  m_pShaderManager (this w) = None -> SetTransformations s rx ry rz t w = Ok w.
Proof. unfold SetTransformations. by intros ->. Qed.

Lemma SetShaderTexture_null (t : string) (w : World) :
  m_pShaderManager (this w) = None -> SetShaderTexture t w = Ok w.
Proof. unfold SetShaderTexture. by intros ->. Qed.

Lemma SetTextureUVScale_null (u v : float) (w : World) :
  m_pShaderManager (this w) = None -> SetTextureUVScale u v w = Ok w.
Proof. unfold SetTextureUVScale. by intros ->. Qed.

Lemma SetShaderMaterial_null (uninitialised : OBJECT_MATERIAL) (t : string)
    (w : World) :
  m_pShaderManager (this w) = None ->
  m_objectMaterials (this w) <> [] ->
  SetShaderMaterial uninitialised t w = NullDereference.
Proof.
  intros Hsm Hmat. unfold SetShaderMaterial, FindMaterial.
  destruct (m_objectMaterials (this w)) as [| m ms] eqn:Hms; [done |].
  rewrite bool_decide_eq_true_2 by (simpl; lia).
  rewrite bool_decide_eq_false_2 by (simpl; lia).
  destruct (FindMaterial_loop _ _ _) as [bFound material].
  unfold setValue. by rewrite Hsm.
Qed.

(** X17.  With no shader manager but at least one material defined:
    [SetTransformations], [SetShaderTexture] and [SetTextureUVScale] return
    with the state unchanged, [SetShaderMaterial] calls through the null
    pointer for every tag, and both the first object of [RenderScene] (the
    desk plane) and [RenderScene] as a whole end in that null dereference. *)
Theorem RenderScene_null_manager_with_materials
    (uninitialised : OBJECT_MATERIAL) (w : World) :
  m_pShaderManager (this w) = None ->
  m_objectMaterials (this w) <> [] ->
  (forall s rx ry rz p, SetTransformations s rx ry rz p w = Ok w)
  /\ (forall t, SetShaderTexture t w = Ok w)
  /\ (forall u v, SetTextureUVScale u v w = Ok w)
  /\ (forall t, SetShaderMaterial uninitialised t w = NullDereference)
  /\ RenderScene_desk uninitialised w = NullDereference
  /\ RenderScene uninitialised w = NullDereference.
Proof.
  intros Hsm Hmat.
  assert (RenderScene_desk uninitialised w = NullDereference) as Hdesk.
  { unfold RenderScene_desk. cbv zeta.
    rewrite (SetTransformations_null _ _ _ _ _ w Hsm), outcome_bind_Ok.
    rewrite (SetShaderTexture_null _ w Hsm), outcome_bind_Ok.
    rewrite (SetTextureUVScale_null _ _ w Hsm), outcome_bind_Ok.
    by rewrite (SetShaderMaterial_null uninitialised _ w Hsm Hmat). }
  split; [intros; by apply SetTransformations_null |].
  split; [intros; by apply SetShaderTexture_null |].
  split; [intros; by apply SetTextureUVScale_null |].
  split; [intros; by apply SetShaderMaterial_null |].
  split; [exact Hdesk |].
  unfold RenderScene. cbv zeta. by rewrite Hdesk.
Qed.

(** X18.  Set-up followed by a pass.  A scene manager constructed with a
    shader manager goes through [PrepareScene] and then [RenderScene] without
    undefined behaviour, whatever the texture files hold; the pass draws the
    nineteen meshes and leaves the registered textures and the OpenGL
    context as [PrepareScene] left them. *)
Theorem PrepareScene_then_RenderScene
    (uninitialised : OBJECT_MATERIAL) (u : gmap string uniform) (g : GLContext) :
  exists w1 w2,
    PrepareScene {| this := SceneManager_new (Some u); gl := g |} = Ok w1
    /\ RenderScene uninitialised w1 = Ok w2
    /\ m_basicMeshes (this w2) = Some scene_meshes
    /\ registered w2 = registered w1
    /\ m_objectMaterials (this w2) = m_objectMaterials (this w1)
    /\ gl w2 = gl w1.
Proof.
  destruct (PrepareScene_new_with_manager u g)
    as (w1 & regs & u' & Hprep & Hfilled & _ & Hsm & _ & Hmesh & _).
  destruct (runs_RenderScene uninitialised (m_pShaderManager (this w1)) [] w1)
    as (sm' & Hrun & _).
  { by apply (filled_in_extent regs). }
  { by rewrite Hsm. }
  rewrite (stage_id w1 [] Hmesh) in Hrun.
  exists w1. eexists. split; [exact Hprep |]. split; [exact Hrun |]. done.
Qed.

(** *** Handles *)

Lemma register_all_handles (calls : list (string * string))
    (regs : list TEXTURE_INFO) (w w' : World) (lo : Z) :
  filled regs w ->
  lo <= gl_next_texture (gl w) ->
  Forall (fun e => lo <= ID e < gl_next_texture (gl w)) regs ->
  NoDup (ID <$> regs) ->
  register_all calls w = Ok w' ->
  exists regs',
    filled regs' w'
    /\ Forall (fun e => lo <= ID e < gl_next_texture (gl w')) regs'
    /\ NoDup (ID <$> regs').
Proof.
  revert regs w.
  induction calls as [| [filename t] calls IH];
    intros regs w Hw Hlo Hrange Hdup; simpl.
  - intros [= <-]. by exists regs.
  - destruct (accepted filename) eqn:Hacc.
    + destruct (decide (length regs = 16%nat)) as [Hfull | Hroom].
      { by rewrite (CreateGLTexture_overflows filename t regs w). }
      pose proof Hw as (_ & _ & Hle).
      destruct (CreateGLTexture_appends filename t regs w Hacc Hw ltac:(lia))
        as (w1 & -> & Hw1 & Hnext).
      simpl. apply (IH _ w1 Hw1).
      * lia.
      * rewrite Hnext. apply Forall_app. split.
        -- eapply Forall_impl; [exact Hrange |]. simpl. intros e He. lia.
        -- apply Forall_singleton. simpl. lia.
      * rewrite fmap_app. apply NoDup_app. split; [done |].
        split; [| apply NoDup_singleton].
        intros h Hh. simpl. rewrite list_elem_of_singleton. intros ->.
        apply list_elem_of_fmap in Hh as (e & He & Hin).
        rewrite Forall_forall in Hrange. specialize (Hrange e Hin). lia.
    + destruct (CreateGLTexture_rejected filename t w Hacc) as (w1 & Hrun & Hthis).
      rewrite Hrun. simpl.
      destruct (CreateGLTexture_members _ _ _ _ _ Hrun) as (_ & _ & _ & Hmono).
      apply (IH regs w1).
      * unfold filled. by rewrite Hthis.
      * lia.
      * eapply Forall_impl; [exact Hrange |]. simpl. intros e He. lia.
      * done.
Qed.

(** X19.  Whatever sequence of registrations is made on a freshly
    constructed scene manager, the registered slots hold pairwise different
    handles, each of them a name [glGenTextures] handed out during the
    run; this holds also where the same tag was registered more than once. *)
Theorem registered_handles_distinct
    (sm : option (gmap string uniform)) (g : GLContext)
    (calls : list (string * string)) (w : World) :
  register_all calls {| this := SceneManager_new sm; gl := g |} = Ok w ->
  NoDup (ID <$> registered w)
  /\ Forall (fun e => gl_next_texture g <= ID e < gl_next_texture (gl w))
       (registered w).
Proof.
  intros Hrun.
  destruct (register_all_handles calls [] _ w (gl_next_texture g)
              (filled_new sm g)) as (regs & (Hn & Ha & _) & Hrange & Hdup);
    [simpl; lia | constructor | constructor | exact Hrun |].
  assert (registered w = regs) as ->.
  { unfold registered. by rewrite Hn, Ha, Nat2Z.id, take_app_length. }
  done.
Qed.

End SceneProperties.

(** ** The properties at the fixtures *)

Section Examples.
#[local] Existing Instance glm_terms.
#[local] Existing Instance test_files.

Lemma three_textures_in_extent : in_extent three_textures.
Proof. unfold in_extent. simpl. lia. Qed.

Lemma three_textures_registered :
  registered three_textures =
  [{| tag := "desk"; ID := 1 |}; {| tag := "steel"; ID := 2 |};
   {| tag := "desk"; ID := 3 |}].
Proof. reflexivity. Qed.

Lemma three_textures_miss (t : string) :
  t <> "desk" -> t <> "steel" ->
  forall e, e ∈ registered three_textures -> tag e <> t.
Proof.
  intros Hdesk Hsteel e. rewrite three_textures_registered.
  rewrite !elem_of_cons, elem_of_nil.
  intros [-> | [-> | [-> | []]]]; simpl; congruence.
Qed.

Lemma FindTexture_witness :
  (FindTextureID "cup" three_textures = Ok (-1)
   /\ FindTextureSlot "cup" three_textures = Ok (-1))
  /\ (FindTextureSlot "desk" three_textures = Ok 0
      /\ FindTextureID "desk" three_textures = Ok (int_of_GLuint 1)
      /\ (0 <= 1 < 2 ^ 31 -> FindTextureID "desk" three_textures = Ok 1)).
Proof.
  destruct (FindTexture_first_match_or_sentinel "cup" three_textures
              three_textures_in_extent) as [Hmiss _].
  destruct (FindTexture_first_match_or_sentinel "desk" three_textures
              three_textures_in_extent) as [_ Hhit].
  split.
  - apply Hmiss. by apply three_textures_miss.
  - apply (Hhit 0%nat {| tag := "desk"; ID := 1 |});
      [reflexivity | reflexivity | intros; lia].
Defined.

Lemma CreateGLTexture_failure_witness :
  exists w',
    CreateGLTexture "grey-alpha.png" "grey" fresh_world = Ok (false, w')
    /\ m_textureIDs (this w') = m_textureIDs (this fresh_world)
    /\ m_loadedTextures (this w') = m_loadedTextures (this fresh_world)
    /\ this w' = this fresh_world.
Proof.
  destruct (CreateGLTexture_failure_leaves_registry
              "grey-alpha.png" "grey" fresh_world) as [Hfails Hkeeps].
  destruct Hfails as [w' Hw'].
  { right. eexists. split; [reflexivity |]. simpl. lia. }
  exists w'. split; [exact Hw' |]. exact (Hkeeps w' Hw').
Defined.

Lemma BindGLTextures_witness :
  exists w1 w2,
    BindGLTextures three_textures = Ok w1
    /\ BindGLTextures w1 = Ok w2
    /\ this w1 = this three_textures
    /\ this w2 = this three_textures
    /\ (forall i e, registered three_textures !! i = Some e ->
          gl_bound_2D (gl w1) !! Z.of_nat i = Some (ID e))
    /\ (forall u, ~ (0 <= u < m_loadedTextures (this three_textures)) ->
          gl_bound_2D (gl w1) !! u = gl_bound_2D (gl three_textures) !! u)
    /\ gl_bound_2D (gl w2) = gl_bound_2D (gl w1).
Proof.
  exact (BindGLTextures_idempotent three_textures three_textures_in_extent).
Defined.

Lemma registered_slots_witness :
  accepted_tags mixed_calls = ["A"; "A"; "D"]
  /\ exists w,
       register_all mixed_calls fresh_world = Ok w
       /\ m_loadedTextures (this w) = 3
       /\ length (m_textureIDs (this w)) = 16%nat
       /\ tag <$> registered w = ["A"; "A"; "D"]
       /\ drop 3 (m_textureIDs (this w)) = replicate 13 initial_slot.
Proof.
  split; [reflexivity |].
  refine (registered_slots_contiguous (Some ∅) fresh_gl mixed_calls _).
  vm_compute. lia.
Defined.

Lemma SetShaderTexture_unregistered_witness :
  (m_pShaderManager (this three_textures) = None ->
     SetShaderTexture "DeskTexture" three_textures = Ok three_textures)
  /\ (forall u, m_pShaderManager (this three_textures) = Some u ->
        SetShaderTexture "DeskTexture" three_textures =
        Ok (with_uniforms
              (<["objectTexture" := Sampler2DValue (-1)]>
                 (<["bUseTexture" := IntValue 1]> u)) three_textures))
  /\ (forall m drawn,
        m_basicMeshes (this three_textures) = Some drawn ->
        exists w1 w2,
          SetShaderTexture "DeskTexture" three_textures = Ok w1
          /\ Draw m w1 = Ok w2
          /\ m_basicMeshes (this w2) = Some (drawn ++ [m])
          /\ m_textureIDs (this w2) = m_textureIDs (this three_textures)
          /\ m_loadedTextures (this w2) = m_loadedTextures (this three_textures))
  /\ ("DeskTexture" = "DeskTexture" ->
      forall u drawn,
        m_pShaderManager (this three_textures) = Some u ->
        m_basicMeshes (this three_textures) = Some drawn ->
        exists w',
          RenderScene_desk no_material three_textures = Ok w'
          /\ m_basicMeshes (this w') = Some (drawn ++ [PlaneMesh])
          /\ uniforms w' !! "bUseTexture" = Some (IntValue 1)
          /\ uniforms w' !! "objectTexture" = Some (Sampler2DValue (-1))
          /\ m_textureIDs (this w') = m_textureIDs (this three_textures)
          /\ m_loadedTextures (this w') = m_loadedTextures (this three_textures)).
Proof.
  apply (SetShaderTexture_unregistered_uploads_sentinel no_material
           "DeskTexture" three_textures three_textures_in_extent).
  apply three_textures_miss; discriminate.
Defined.

(** C6, counterexample.  A scene manager fresh from the constructor, with a
    shader manager and no texture registered: [SetShaderTexture "missing"]
    switches texturing on and uploads -1 as the sampler. *)
Lemma unregistered_texture_not_skipped :
  (uniforms fresh_world !! "bUseTexture",
   uniforms fresh_world !! "objectTexture") = (None, None)
  /\ (w ← SetShaderTexture "missing" fresh_world;
      Ok (uniforms w !! "bUseTexture", uniforms w !! "objectTexture"))
     = Ok (Some (IntValue 1), Some (Sampler2DValue (-1))).
Proof. split; vm_compute; reflexivity. Qed.

(** C8, counterexample.  Registering the tag "A" twice fills slots 0 and 1
    with the same tag. *)
Lemma duplicate_tags_registered :
  (w ← register_all [("rgb.jpg", "A"); ("rgb.jpg", "A")] fresh_world;
   Ok (m_loadedTextures (this w), tag <$> registered w))
  = Ok (2, ["A"; "A"]).
Proof. vm_compute. reflexivity. Qed.

(** The failing call of C10 at a fixture: no shader manager, the three
    materials defined. *)
Lemma SetShaderMaterial_headless :
  SetShaderMaterial no_material "wood" (DefineObjectMaterials headless_world)
  = NullDereference.
Proof. reflexivity. Qed.

(** C2.  After sixteen accepted registrations the count is 16, and one more
    accepted registration stores to index 16 of the 16-slot table. *)
Theorem seventeenth_registration_out_of_bounds :
  (w ← register_all sixteen_calls fresh_world;
   Ok (m_loadedTextures (this w), length (m_textureIDs (this w))))
  = Ok (16, 16%nat)
  /\ (w ← register_all sixteen_calls fresh_world;
      CreateGLTexture "rgb.jpg" "t16" w)
     = OutOfBounds 16.
Proof. split; vm_compute; reflexivity. Qed.

(** C7.  Two textures registered with handles 1 and 2: the destructor issues
    two [glGenTextures] calls and nothing else, so neither handle is
    released, and the table ends up holding the new names 3 and 4. *)
Theorem teardown_generates_instead_of_deleting :
  (w ← register_all [("rgb.jpg", "a"); ("rgba.png", "b")] fresh_world;
   w' ← SceneManager_delete w;
   Ok (ID <$> registered w,
       drop (length (gl_calls (gl w))) (gl_calls (gl w')),
       ID <$> registered w'))
  = Ok ([1; 2], [glGenTextures 3; glGenTextures 4], [3; 4]).
Proof. vm_compute. reflexivity. Qed.

End Examples.

(** ** The remaining properties at the fixtures *)

Section SceneExamples.
#[local] Existing Instance glm_terms.
#[local] Existing Instance test_files.

Lemma three_textures_room :
  (Z.to_nat (m_loadedTextures (this three_textures))
   < length (m_textureIDs (this three_textures)))%nat.
Proof. simpl. lia. Qed.

Lemma furnished_wood_first :
  forall j m', (j < 1)%nat ->
    m_objectMaterials (this furnished_world) !! j = Some m' ->
    material_tag m' <> "wood".
Proof.
  intros [| j] m' Hj Hm'; [| lia].
  injection Hm' as <-. discriminate.
Qed.

Lemma furnished_no_plastic :
  forall m, m ∈ m_objectMaterials (this furnished_world) ->
    material_tag m <> "plastic".
Proof.
  intros m Hm. simpl in Hm.
  rewrite !elem_of_cons, elem_of_nil in Hm.
  destruct Hm as [-> | [-> | [-> | []]]]; discriminate.
Qed.

Lemma FindTexture_lookups_witness :
  exists z,
    FindTextureSlot "steel" three_textures = Ok z
    /\ -1 <= z < Z.max 0 (m_loadedTextures (this three_textures))
    /\ (z = -1 -> FindTextureID "steel" three_textures = Ok (-1))
    /\ (0 <= z ->
        exists e, m_textureIDs (this three_textures) !! Z.to_nat z = Some e
          /\ tag e = "steel"
          /\ FindTextureID "steel" three_textures = Ok (int_of_GLuint (ID e))).
Proof.
  exact (FindTexture_lookups_agree "steel" three_textures three_textures_in_extent).
Defined.

Lemma CreateGLTexture_then_find_witness :
  exists w',
    CreateGLTexture "rgb.jpg" "cup" three_textures = Ok (true, w')
    /\ registered w' =
       registered three_textures ++ [{| tag := "cup"; ID := 1 |}]
    /\ (FindTextureSlot "cup" three_textures = Ok (-1) ->
        FindTextureSlot "cup" w' = Ok 3
        /\ FindTextureID "cup" w' = Ok (int_of_GLuint 1))
    /\ (forall t', t' <> "cup" \/ FindTextureSlot t' three_textures <> Ok (-1) ->
        FindTextureSlot t' w' = FindTextureSlot t' three_textures
        /\ FindTextureID t' w' = FindTextureID t' three_textures).
Proof.
  refine (CreateGLTexture_then_find "rgb.jpg" "cup" three_textures _ _ _).
  - reflexivity.
  - simpl. lia.
  - exact three_textures_room.
Defined.

Lemma FindMaterial_first_match_witness :
  FindMaterial "wood" no_material furnished_world =
  (true,
   {| diffuseColor := diffuseColor wood_material;
      specularColor := specularColor wood_material;
      shininess := shininess wood_material;
      material_tag := material_tag no_material |}).
Proof.
  refine (FindMaterial_first_match "wood" no_material furnished_world 1
            wood_material _ _ furnished_wood_first); reflexivity.
Defined.

Lemma FindMaterial_no_match_witness :
  FindMaterial "plastic" no_material furnished_world =
  (bool_decide (m_objectMaterials (this furnished_world) <> []), no_material).
Proof.
  exact (FindMaterial_no_match "plastic" no_material furnished_world
           furnished_no_plastic).
Defined.

Lemma SetShaderMaterial_first_match_witness :
  SetShaderMaterial no_material "wood" furnished_world =
  Ok (with_uniforms
        (<["material.shininess" := FloatValue (shininess wood_material)]>
           (<["material.specularColor" := Vec3Value (specularColor wood_material)]>
              (<["material.diffuseColor" := Vec3Value (diffuseColor wood_material)]>
                 ∅))) furnished_world).
Proof.
  refine (SetShaderMaterial_uploads_first_match no_material "wood"
            furnished_world ∅ 1 wood_material _ _ _ furnished_wood_first);
    reflexivity.
Defined.

Lemma SetShaderMaterial_uninitialised_witness :
  SetShaderMaterial no_material "plastic" furnished_world =
  Ok (with_uniforms
        (<["material.shininess" := FloatValue (shininess no_material)]>
           (<["material.specularColor" := Vec3Value (specularColor no_material)]>
              (<["material.diffuseColor" := Vec3Value (diffuseColor no_material)]>
                 ∅))) furnished_world).
Proof.
  refine (SetShaderMaterial_uploads_uninitialised no_material "plastic"
            furnished_world ∅ _ _ furnished_no_plastic).
  - reflexivity.
  - discriminate.
Defined.

Lemma sampler_names_bound_unit_witness :
  exists w1 w2 e,
    BindGLTextures three_textures = Ok w1
    /\ SetShaderTexture "steel" w1 = Ok w2
    /\ m_textureIDs (this three_textures) !! Z.to_nat 1 = Some e
    /\ tag e = "steel"
    /\ uniforms w2 !! "bUseTexture" = Some (IntValue 1)
    /\ uniforms w2 !! "objectTexture" = Some (Sampler2DValue 1)
    /\ gl_bound_2D (gl w2) !! 1 = Some (ID e).
Proof.
  refine (sampler_names_bound_unit "steel" three_textures ∅ 1
            three_textures_in_extent _ _ _).
  - reflexivity.
  - reflexivity.
  - lia.
Defined.

Lemma CreateGLTexture_after_bind_witness :
  exists w1 w2 e,
    BindGLTextures three_textures = Ok w1
    /\ m_textureIDs (this three_textures)
         !! Z.to_nat (m_loadedTextures (this three_textures) - 1) = Some e
    /\ gl_bound_2D (gl w1) !! (m_loadedTextures (this three_textures) - 1)
       = Some (ID e)
    /\ CreateGLTexture "rgb.jpg" "cup" w1 = Ok (true, w2)
    /\ gl_bound_2D (gl w2) !! (m_loadedTextures (this three_textures) - 1)
       = Some 0.
Proof.
  refine (CreateGLTexture_after_bind_unbinds_last_unit "rgb.jpg" "cup"
            three_textures _ _ three_textures_room).
  - reflexivity.
  - simpl. lia.
Defined.

Lemma color_and_texture_witness :
  (exists w',
     (w1 ← SetShaderTexture "steel" three_textures;
      SetShaderColor (Literal "1") (Literal "1") (Literal "1") (Literal "1") w1)
     = Ok w'
     /\ uniforms w' !! "bUseTexture" = Some (IntValue 0)
     /\ uniforms w' !! "objectColor" =
        Some (Vec4Value (Literal "1", Literal "1", Literal "1", Literal "1"))
     /\ uniforms w' !! "objectTexture" = Some (Sampler2DValue 1))
  /\ (exists w',
     (w1 ← SetShaderColor (Literal "1") (Literal "1") (Literal "1") (Literal "1")
             three_textures;
      SetShaderTexture "steel" w1) = Ok w'
     /\ uniforms w' !! "bUseTexture" = Some (IntValue 1)
     /\ uniforms w' !! "objectColor" =
        Some (Vec4Value (Literal "1", Literal "1", Literal "1", Literal "1"))
     /\ uniforms w' !! "objectTexture" = Some (Sampler2DValue 1)).
Proof.
  refine (color_and_texture_last_write_wins "steel"
            (Literal "1") (Literal "1") (Literal "1") (Literal "1")
            three_textures ∅ 1 _ _); reflexivity.
Defined.

Lemma SceneManager_delete_witness :
  exists w',
    SceneManager_delete three_textures = Ok w'
    /\ m_pShaderManager (this w') = None
    /\ m_basicMeshes (this w') = None
    /\ m_loadedTextures (this w') = m_loadedTextures (this three_textures)
    /\ gl_calls (gl w') =
       gl_calls (gl three_textures) ++
       (glGenTextures <$>
          seqZ (gl_next_texture (gl three_textures))
               (Z.of_nat (Z.to_nat (m_loadedTextures (this three_textures)))))
    /\ gl_bound_2D (gl w') = gl_bound_2D (gl three_textures)
    /\ (forall i e, registered three_textures !! i = Some e ->
          registered w' !! i =
          Some {| tag := tag e;
                  ID := gl_next_texture (gl three_textures) + Z.of_nat i |}).
Proof.
  exact (SceneManager_delete_overwrites_handles three_textures
           three_textures_in_extent).
Defined.

Lemma RenderScene_draws_witness :
  exists w',
    RenderScene no_material three_textures = Ok w'
    /\ m_basicMeshes (this w') = Some ([] ++ scene_meshes)
    /\ m_textureIDs (this w') = m_textureIDs (this three_textures)
    /\ m_loadedTextures (this w') = m_loadedTextures (this three_textures)
    /\ m_objectMaterials (this w') = m_objectMaterials (this three_textures)
    /\ gl w' = gl three_textures
    /\ (m_pShaderManager (this w') = None
        <-> m_pShaderManager (this three_textures) = None).
Proof.
  refine (RenderScene_draws_the_scene no_material three_textures []
            three_textures_in_extent _ _).
  - reflexivity.
  - discriminate.
Defined.

Lemma RenderScene_null_manager_witness :
  (forall s rx ry rz p,
     SetTransformations s rx ry rz p (DefineObjectMaterials headless_world)
     = Ok (DefineObjectMaterials headless_world))
  /\ (forall t,
        SetShaderTexture t (DefineObjectMaterials headless_world)
        = Ok (DefineObjectMaterials headless_world))
  /\ (forall u v,
        SetTextureUVScale u v (DefineObjectMaterials headless_world)
        = Ok (DefineObjectMaterials headless_world))
  /\ (forall t,
        SetShaderMaterial no_material t (DefineObjectMaterials headless_world)
        = NullDereference)
  /\ RenderScene_desk no_material (DefineObjectMaterials headless_world)
     = NullDereference
  /\ RenderScene no_material (DefineObjectMaterials headless_world)
     = NullDereference.
Proof.
  refine (RenderScene_null_manager_with_materials no_material
            (DefineObjectMaterials headless_world) _ _).
  - reflexivity.
  - discriminate.
Defined.

Lemma mixed_world_run : register_all mixed_calls fresh_world = Ok mixed_world.
Proof. vm_compute. reflexivity. Qed.

Lemma registered_handles_witness :
  NoDup (ID <$> registered mixed_world)
  /\ Forall (fun e => gl_next_texture fresh_gl <= ID e
                      < gl_next_texture (gl mixed_world))
       (registered mixed_world).
Proof.
  exact (registered_handles_distinct (Some ∅) fresh_gl mixed_calls mixed_world
           mixed_world_run).
Defined.

End SceneExamples.
